(** * Sakura model service ([utils/model.py]): a shallow embedding

    The Python module loads a causal language model, guards its declared
    version, and serves completions behind one lock.  The embedding keeps the
    module's shape: the configuration dataclass is a record, the service
    object lives in an explicit state that every method threads, the calls
    into the modelling library are fields of one interface class, and
    exceptions, [exit] and a blocked lock are outcomes of a small monad. *)

From Stdlib Require Import ZArith QArith Lia.
From stdpp Require Import base option list strings gmap.
From Equations Require Import Equations.

Local Open Scope string_scope.
Local Open Scope Z_scope.

(** ** Python strings *)

Module PyStr.

(** A Python [str] is modelled by the string of its UTF-8 bytes.  Equality
    and the substring test on well-formed strings are the same on bytes as
    on characters; the length has to count characters. *)

(** [s.startswith(p)], on the characters of the two strings. *)
Fixpoint startswith (p s : string) : bool :=
  match p, s with
  | EmptyString, _ => true
  | String _ _, EmptyString => false
  | String a p', String b s' => if Ascii.eqb a b then startswith p' s' else false
  end.

(** [needle in hay] for two [str] operands: the substring test. *)
Fixpoint contains (needle hay : string) : bool :=
  startswith needle hay ||
  match hay with
  | EmptyString => false
  | String _ hay' => contains needle hay'
  end.

(** A byte of the form 10xxxxxx continues a character begun earlier. *)
Definition is_continuation (a : Ascii.ascii) : bool :=
  match a with
  | Ascii.Ascii _ _ _ _ _ _ b6 b7 => b7 && negb b6
  end.

(** [len(s)]: the number of characters, that is, of bytes that begin one. *)
Fixpoint len (s : string) : Z :=
  match s with
  | EmptyString => 0
  | String a s' => (if is_continuation a then 0 else 1) + len s'
  end.

(** [max(a, b)] on integers: the first argument is kept unless the second
    is strictly greater. *)
Definition max (a b : Z) : Z := if b >? a then b else a.

End PyStr.

(** ** Data model *)

(** [SakuraModelConfig], field for field. *)
Record SakuraModelConfig := mkConfig {
  model_name_or_path : string;
  use_gptq_model : bool;
  trust_remote_code : bool;
  llama : bool;
  text_length : Z;
  model_name : option string;
  model_quant : option string;
  model_version : string
}.

(** The dataclass defaults. *)
Definition default_config (path : string) (gptq : bool) : SakuraModelConfig :=
  mkConfig path gptq false false 512 None None "0.8".

(** [transformers.GenerationConfig], the fields this module writes. *)
Record GenerationConfig := mkGenerationConfig {
  temperature : Q;
  top_p : Q;
  top_k : Z;
  num_beams : Z;
  bos_token_id : Z;
  eos_token_id : Z;
  pad_token_id : Z;
  max_new_tokens : Z;
  min_new_tokens : Z;
  do_sample : bool;
  repetition_penalty : Q;
  frequency_penalty : Q
}.

(** [SakuraModel.ModelResponse]. *)
Record ModelResponse := mkModelResponse {
  context_token : Z;
  new_token : Z;
  text : string
}.

(** An entry of the test-case registry in [utils.consts]. *)
Record TestCase := mkTestCase {
  generation_config : GenerationConfig;
  test_input : string;
  test_output : string
}.

(** Exceptions the module raises itself or lets through. *)
Inductive Exn :=
| ValueError (msg : string)
| AttributeError (attr : string)
| IndexError
| ZeroDivisionError
| LibraryError (what : string).

(** How a call ends: it returns, raises, leaves the process through
    [exit(code)], or waits on a lock that is never released. *)
Inductive Outcome (A : Type) :=
| Ret (a : A)
| Raise (e : Exn)
| Exit (code : Z)
| Blocked.
Arguments Ret {A} a.
Arguments Raise {A} e.
Arguments Exit {A} code.
Arguments Blocked {A}.

(** The status the operating system sees for [exit(code)]. *)
Definition exit_status (code : Z) : Z := Z.land code 255.

(** The two tokenizer constructors and three model constructors. *)
Inductive TokenizerCtor := LlamaTokenizer_ctor | AutoTokenizer_ctor.
Inductive ModelCtor := AutoGPTQ_ctor | LlamaForCausalLM_ctor | AutoModelForCausalLM_ctor.

Inductive Level := DEBUG | INFO | WARNING | ERROR.

(** Which logger object a record goes through: the module's
    [logging.getLogger(__name__)] or the root [logging] functions. *)
Inductive LoggerRef := ModuleLogger | RootLogger.

(** The messages of the module, with their interpolated values. *)
Inductive Msg :=
| MsgLoadingModel
| MsgAttrsMissing
| MsgVersionCheckFailed (input_model_version reported : string)
| MsgCurrentConfig (name version quant : string)
| MsgTestOutput (output : ModelResponse)
| MsgGroundTruthDebug (ground_truth : string)
| MsgOutputNotCorrect
| MsgInput (prompt : string)
| MsgGroundTruth (ground_truth : string)
| MsgCurrentOutput (output : ModelResponse)
| MsgSpeed (seconds : Q) (new_tokens context_tokens : Z).

(** What a run leaves behind, in the order it happened. *)
Inductive Event :=
| EvLog (via : LoggerRef) (lvl : Level) (m : Msg)
| EvPrint (line : string)
| EvHijackSamplers
| EvLogGenerationConfig (gc : GenerationConfig)
| EvLoadTokenizer (ctor : TokenizerCtor) (path : string) (trust : bool)
| EvLoadModel (ctor : ModelCtor) (path : string) (trust : bool)
| EvTokenize (prompt : string)
| EvGenerate (gc : GenerationConfig)
| EvDecode (tokens : list Z)
| EvDetect (tokens : list Z).

(** ** The collaborators outside this module

    The modelling library, [utils] and [utils.consts] are called, never
    defined, here.  Each call may raise; [generate] also consumes the state
    of the random number generator. *)
Class Externals := {
  Tokenizer : Type;
  Model : Type;
  Rng : Type;
  from_pretrained_tokenizer : TokenizerCtor -> string -> bool -> Exn + Tokenizer;
  from_pretrained_model : ModelCtor -> string -> bool -> Exn + Model;
  model_config : Model -> gmap string string;
  tokenize : Tokenizer -> string -> Exn + list Z;
  generate : Model -> Rng -> list Z -> GenerationConfig -> (Exn + list Z) * Rng;
  decode : Tokenizer -> list Z -> Exn + string;
  split_response : string -> string -> Exn + string;
  detect_degeneration : list Z -> string -> Exn + bool;
  get_test_case_by_model_version : string -> Exn + TestCase;
  get_prompt : string -> string -> Exn + string;
  time_source : nat -> Q
}.

Section Service.
Context {E : Externals}.

(** The service object ([self]) and the world around it.  [cfg] is the one
    configuration object the caller built and [self.cfg] aliases;
    [tokenizer] and [model] are unbound until [__init__] assigns them. *)
Record State := mkState {
  cfg : SakuraModelConfig;
  lock : bool;
  tokenizer : option Tokenizer;
  model : option Model;
  rng : Rng;
  clock_reads : nat;
  trace : list Event
}.

Definition M (A : Type) : Type := State -> Outcome A * State.

Definition ret {A} (a : A) : M A := fun s => (Ret a, s).

Definition bind {A B} (m : M A) (k : A -> M B) : M B :=
  fun s =>
    match m s with
    | (Ret a, s') => k a s'
    | (Raise e, s') => (Raise e, s')
    | (Exit c, s') => (Exit c, s')
    | (Blocked, s') => (Blocked, s')
    end.

Definition raise {A} (e : Exn) : M A := fun s => (Raise e, s).
Definition exit {A} (code : Z) : M A := fun s => (Exit code, s).

Notation "x <- m ;; k" := (bind m (fun x => k))
  (at level 100, m at next level, right associativity).
Notation "m ;; k" := (bind m (fun _ => k))
  (at level 100, right associativity).

(** *** Primitive effects *)

Definition emit (ev : Event) : M unit :=
  fun s => (Ret tt, mkState (cfg s) (lock s) (tokenizer s) (model s) (rng s)
                            (clock_reads s) (trace s ++ [ev])%list).

Definition log (via : LoggerRef) (lvl : Level) (m : Msg) : M unit :=
  emit (EvLog via lvl m).

(** A call into a collaborator: its value, or its exception unchanged. *)
Definition call {A} (r : Exn + A) : M A :=
  match r with
  | inl e => raise e
  | inr a => ret a
  end.

(** [time.time()]: the next reading of the clock. *)
Definition time_time : M Q :=
  fun s => (Ret (time_source (clock_reads s)),
            mkState (cfg s) (lock s) (tokenizer s) (model s) (rng s)
                    (S (clock_reads s)) (trace s)).

Definition get_cfg : M SakuraModelConfig := fun s => (Ret (cfg s), s).

Definition set_cfg (c : SakuraModelConfig) : M unit :=
  fun s => (Ret tt, mkState c (lock s) (tokenizer s) (model s) (rng s)
                            (clock_reads s) (trace s)).

Definition set_lock (held : bool) (s : State) : State :=
  mkState (cfg s) held (tokenizer s) (model s) (rng s) (clock_reads s) (trace s).

Definition get_tokenizer : M Tokenizer :=
  fun s => match tokenizer s with
           | Some t => (Ret t, s)
           | None => (Raise (AttributeError "tokenizer"), s)
           end.

Definition get_model : M Model :=
  fun s => match model s with
           | Some m => (Ret m, s)
           | None => (Raise (AttributeError "model"), s)
           end.

Definition set_tokenizer (t : Tokenizer) : M unit :=
  fun s => (Ret tt, mkState (cfg s) (lock s) (Some t) (model s) (rng s)
                            (clock_reads s) (trace s)).

Definition set_model (m : Model) : M unit :=
  fun s => (Ret tt, mkState (cfg s) (lock s) (tokenizer s) (Some m) (rng s)
                            (clock_reads s) (trace s)).

(** [with self.lock: body].  Entering waits while the lock is held; leaving
    releases it whether the body returned or raised. *)
Definition with_lock {A} (body : M A) : M A :=
  fun s =>
    if lock s then (Blocked, s)
    else match body (set_lock true s) with
         | (Blocked, s') => (Blocked, s')
         | (o, s') => (o, set_lock false s')
         end.

(** [tokenizer(prompt, return_tensors="pt")]. *)
Definition run_tokenize (tok : Tokenizer) (prompt : string) : M (list Z) :=
  emit (EvTokenize prompt) ;; call (tokenize tok prompt).

(** [model.generate(input, generation_config=gc)[0]]. *)
Definition run_generate (mdl : Model) (input : list Z) (gc : GenerationConfig)
  : M (list Z) :=
  emit (EvGenerate gc) ;;
  fun s =>
    let '(r, g) := generate mdl (rng s) input gc in
    call r (mkState (cfg s) (lock s) (tokenizer s) (model s) g
                    (clock_reads s) (trace s)).

(** [tokenizer.decode(generation)]. *)
Definition run_decode (tok : Tokenizer) (generation : list Z) : M string :=
  emit (EvDecode generation) ;; call (decode tok generation).

(** *** [load_model] (lines 40-65)

    The two conditional imports of lines 41-45 run first and raise when
    their package is missing.  They are not modelled: the definition is the
    function from line 47 on, which is all of it for a configuration that
    sets neither [use_gptq_model] nor [llama], and the rest of it for a run
    that got past the imports. *)
Definition trust_flag_message : string :=
  "If you use model version 0.5, 0.7 or 0.8, please add flag --trust_remote_code.".

Definition load_model (args : SakuraModelConfig) : M (Tokenizer * Model) :=
  if negb (trust_remote_code args)
     && PyStr.contains (model_version args) "0.5 0.7 0.8"
  then raise (ValueError trust_flag_message)
  else
    log ModuleLogger INFO MsgLoadingModel ;;
    let tctor := if llama args then LlamaTokenizer_ctor else AutoTokenizer_ctor in
    emit (EvLoadTokenizer tctor (model_name_or_path args) (trust_remote_code args)) ;;
    tok <- call (from_pretrained_tokenizer tctor (model_name_or_path args)
                   (trust_remote_code args)) ;;
    let mctor := if use_gptq_model args then AutoGPTQ_ctor
                 else if llama args then LlamaForCausalLM_ctor
                      else AutoModelForCausalLM_ctor in
    emit (EvLoadModel mctor (model_name_or_path args) (trust_remote_code args)) ;;
    mdl <- call (from_pretrained_model mctor (model_name_or_path args)
                   (trust_remote_code args)) ;;
    ret (tok, mdl).

(** *** [SakuraModel.__init__] (lines 76-111) *)

Definition with_model_name (v : string) (c : SakuraModelConfig) :=
  mkConfig (model_name_or_path c) (use_gptq_model c) (trust_remote_code c)
           (llama c) (text_length c) (Some v) (model_quant c) (model_version c).
Definition with_model_version (v : string) (c : SakuraModelConfig) :=
  mkConfig (model_name_or_path c) (use_gptq_model c) (trust_remote_code c)
           (llama c) (text_length c) (model_name c) (model_quant c) v.
Definition with_model_quant (v : string) (c : SakuraModelConfig) :=
  mkConfig (model_name_or_path c) (use_gptq_model c) (trust_remote_code c)
           (llama c) (text_length c) (model_name c) (Some v) (model_version c).

Definition modify_cfg (f : SakuraModelConfig -> SakuraModelConfig) : M unit :=
  c <- get_cfg ;; set_cfg (f c).

(** The three attribute reads of the [try] block: all three values, or
    nothing as soon as one attribute is missing. *)
Definition read_identity (attrs : gmap string string)
  : option (string * string * string) :=
  match attrs !! "sakura_name" with
  | None => None
  | Some n =>
      match attrs !! "sakura_version" with
      | None => None
      | Some v =>
          match attrs !! "sakura_quant" with
          | None => None
          | Some q => Some (n, v, q)
          end
      end
  end.

(** Lines 80-85: bind the configuration, patch the samplers, create the
    lock. *)
Definition init_prologue (c : SakuraModelConfig) : M unit :=
  set_cfg c ;;
  emit EvHijackSamplers ;;
  (fun s => (Ret tt, set_lock false s)).

(** Lines 92-96: the [try] block.  Its bare [except] catches whatever the
    three reads raise, an unbound [self.model] included. *)
Definition try_read_identity : M (option (string * string * string)) :=
  fun s =>
    (Ret match model s with
         | Some m => read_identity (model_config m)
         | None => None
         end, s).

(** Lines 92-109: read the identity attributes, compare versions, back-fill. *)
Definition version_guard : M unit :=
  identity <- try_read_identity ;;
  match identity with
  | None =>
      log ModuleLogger ERROR MsgAttrsMissing ;;
      exit (-1)
  | Some (name, version, quant) =>
      c <- get_cfg ;;
      let input_model_version := model_version c in
      if negb (String.eqb input_model_version version) then
        log ModuleLogger ERROR (MsgVersionCheckFailed input_model_version version) ;;
        log ModuleLogger ERROR (MsgCurrentConfig name version quant) ;;
        exit (-1)
      else
        modify_cfg (with_model_name name) ;;
        modify_cfg (with_model_version version) ;;
        modify_cfg (with_model_quant quant)
  end.

Definition __init__ (c : SakuraModelConfig) : M unit :=
  init_prologue c ;;
  loaded <- load_model c ;;
  let '(tok, mdl) := loaded in
  set_tokenizer tok ;;
  set_model mdl ;;
  version_guard.

(** *** [get_max_text_length] (lines 129-130) *)
Definition get_max_text_length (length : Z) : M Z :=
  c <- get_cfg ;;
  ret (PyStr.max (text_length c) length).

(** *** [get_model_response] (lines 160-178)

    [text_length] is a parameter of the method; its body never reads it. *)
Definition get_model_response (mdl : Model) (tok : Tokenizer) (prompt : string)
    (version : string) (gc : GenerationConfig) (text_length : Z)
    (is_print_speed : bool) : M ModelResponse :=
  locked <-
    with_lock (
      t0 <- time_time ;;
      input_token <- run_tokenize tok prompt ;;
      let input_token_len := Z.of_nat (length input_token) in
      generation <- run_generate mdl input_token gc ;;
      let new_token := Z.of_nat (length generation) - input_token_len in
      response <- run_decode tok generation ;;
      output <- call (split_response response version) ;;
      t1 <- time_time ;;
      ret (t0, input_token_len, new_token, output, t1)) ;;
  let '(t0, input_token_len, new_token, output, t1) := locked in
  (if is_print_speed then
     if Qeq_bool (t1 - t0) 0 then raise ZeroDivisionError
     else log ModuleLogger INFO (MsgSpeed (t1 - t0) new_token input_token_len)
   else ret tt) ;;
  ret (mkModelResponse input_token_len new_token output).

(** *** [completion] (lines 132-145)

    The body calls whatever method is bound at [self.get_model_response];
    [completion_with] is the body with that method as a parameter, and
    [completion] is the body on the method of the class. *)
Definition completion_with {R : Type}
    (callee : Model -> Tokenizer -> string -> string -> GenerationConfig -> Z ->
              bool -> M R)
    (prompt : string) (gc : GenerationConfig) (is_print_speed : bool) : M R :=
  emit (EvLogGenerationConfig gc) ;;
  mdl <- get_model ;;
  tok <- get_tokenizer ;;
  c <- get_cfg ;;
  text_length <- get_max_text_length (PyStr.len prompt) ;;
  callee mdl tok prompt (model_version c) gc text_length is_print_speed.

Definition completion (prompt : string) (gc : GenerationConfig)
    (is_print_speed : bool) : M ModelResponse :=
  completion_with get_model_response prompt gc is_print_speed.

(** *** [test_loaded] (lines 147-157) *)
Definition test_loaded : M (string * string * ModelResponse) :=
  c <- get_cfg ;;
  testcase <- call (get_test_case_by_model_version (model_version c)) ;;
  c <- get_cfg ;;
  prompt <- call (get_prompt (test_input testcase) (model_version c)) ;;
  output <- completion prompt (generation_config testcase) false ;;
  ret (prompt, test_output testcase, output).

(** *** [check_model_by_magic] (lines 116-126) *)
Definition check_model_by_magic : M bool :=
  tested <- test_loaded ;;
  let '(prompt, ground_truth, output) := tested in
  log ModuleLogger DEBUG (MsgTestOutput output) ;;
  log ModuleLogger DEBUG (MsgGroundTruthDebug ground_truth) ;;
  let result := String.eqb ground_truth (text output) in
  (if negb result then
     log RootLogger WARNING MsgOutputNotCorrect ;;
     log RootLogger WARNING (MsgInput prompt) ;;
     log RootLogger WARNING (MsgGroundTruth ground_truth) ;;
     log RootLogger WARNING (MsgCurrentOutput output)
   else ret tt) ;;
  ret result.

(** *** [get_model_response_anti_degen] (lines 180-224) *)

Definition backup_generation_config_stage2 (text_length : Z) : GenerationConfig :=
  mkGenerationConfig (1 # 10)%Q (3 # 10)%Q 40 1 1 2 0 (2 * text_length) 1 true
                     1%Q (5 # 100)%Q.

Definition backup_generation_config_stage3 (text_length : Z) : GenerationConfig :=
  mkGenerationConfig (1 # 10)%Q (3 # 10)%Q 40 1 1 2 0 (2 * text_length) 1 true
                     1%Q (2 # 10)%Q.

Definition backup_generation_config (text_length : Z) : list GenerationConfig :=
  [backup_generation_config_stage2 text_length;
   backup_generation_config_stage3 text_length].

(** [l[i]] on a Python list: a negative index counts from the end, an index
    outside the list raises. *)
Definition py_index {A} (l : list A) (i : Z) : Exn + A :=
  let j := if i <? 0 then i + Z.of_nat (length l) else i in
  if j <? 0 then inl IndexError
  else match l !! Z.to_nat j with
       | Some a => inr a
       | None => inl IndexError
       end.

(** The loop condition: [utils.detect_degeneration(list(generation), version)]. *)
Definition run_detect (generation : list Z) (version : string) : M bool :=
  emit (EvDetect generation) ;; call (detect_degeneration generation version).

(** The regeneration on line 221, for the value [stage] has there. *)
Definition regenerate (mdl : Model) (tok : Tokenizer) (prompt : string)
    (backup : list GenerationConfig) (stage : Z) : M (list Z) :=
  input <- run_tokenize tok prompt ;;
  gc <- call (py_index backup (stage - 1)) ;;
  run_generate mdl input gc.

(** The [while] loop of lines 216-221, entered with the current [stage] and
    [generation]; it yields the generation the loop leaves behind.  A turn
    asks the detector, then does [stage += 1] and tests [stage > 2] on the
    new value, and regenerates with [backup[stage - 1]] if it did not break.
    The loop ends because [stage] only grows towards 3. *)
Equations? degeneration_loop (mdl : Model) (tok : Tokenizer) (prompt version : string)
    (backup : list GenerationConfig) (stage : Z) (generation : list Z) (s : State)
  : Outcome (list Z) * State by wf (Z.to_nat (3 - stage)) lt :=
  degeneration_loop mdl tok prompt version backup stage generation s
    with run_detect generation version s => {
    | (Ret false, s1) => (Ret generation, s1);
    | (Ret true, s1) with Z_gt_le_dec (stage + 1) 2 => {
        | left _ =>
            (Ret generation,
             snd (emit (EvPrint "model degeneration cannot be avoided.") s1));
        | right _ with regenerate mdl tok prompt backup (stage + 1) s1 => {
            | (Ret generation', s2) =>
                degeneration_loop mdl tok prompt version backup (stage + 1)
                                  generation' s2;
            | (Raise e, s2) => (Raise e, s2);
            | (Exit c, s2) => (Exit c, s2);
            | (Blocked, s2) => (Blocked, s2) } };
    | (Raise e, s1) => (Raise e, s1);
    | (Exit c, s1) => (Exit c, s1);
    | (Blocked, s1) => (Blocked, s1) }.
Proof. lia. Qed.

Definition get_model_response_anti_degen (mdl : Model) (tok : Tokenizer)
    (prompt version : string) (gc : GenerationConfig) (text_length : Z) : M string :=
  let backup := backup_generation_config text_length in
  input <- run_tokenize tok prompt ;;
  generation <- run_generate mdl input gc ;;
  generation <-
    (if Z.of_nat (length generation) >? 2 * text_length
     then degeneration_loop mdl tok prompt version backup 0 generation
     else ret generation) ;;
  response <- run_decode tok generation ;;
  call (split_response response version).

(** *** Observations used in the statements below *)

(** The events a run added to the trace. *)
Definition events_since (s s' : State) : list Event :=
  drop (length (trace s)) (trace s').

(** The state a returning critical section leaves behind. *)
Definition after_generation (s : State) (prompt : string) (gc : GenerationConfig)
    (generation : list Z) (g : Rng) : State :=
  mkState (cfg s) false (tokenizer s) (model s) g (S (S (clock_reads s)))
          (trace s ++ [EvTokenize prompt; EvGenerate gc; EvDecode generation]).

(** The same service with another configured default length. *)
Definition reconfigure (n : Z) (s : State) : State :=
  let c := cfg s in
  mkState (mkConfig (model_name_or_path c) (use_gptq_model c) (trust_remote_code c)
                    (llama c) n (model_name c) (model_quant c) (model_version c))
          (lock s) (tokenizer s) (model s) (rng s) (clock_reads s) (trace s).

End Service.

(** ** A stand-in library

    A small, fully computable implementation of the collaborators, used to
    run the service on concrete inputs. *)
Module Demo.

Definition attrs : gmap string string :=
  <["sakura_name" := "Sakura-13B-LNovel"]>
    (<["sakura_version" := "0.8"]> (<["sakura_quant" := "fp16"]> ∅)).

Definition encode (s : string) : list Z :=
  map (fun a => Z.of_nat (Ascii.nat_of_ascii a)) (String.list_ascii_of_string s).

Definition render (tokens : list Z) : string :=
  String.string_of_list_ascii (map (fun t => Ascii.ascii_of_nat (Z.to_nat t)) tokens).

(** Greedy decoding repeats one token; sampling draws it from the
    generator.  Either way the generator advances. *)
Definition continue (seed : nat) (input : list Z) (gc : GenerationConfig)
  : (Exn + list Z) * nat :=
  (inr (input ++ replicate (Z.to_nat (max_new_tokens gc))
                           (if do_sample gc then 98 + Z.of_nat seed else 97))%list,
   S seed).

Definition greedy : GenerationConfig :=
  mkGenerationConfig 1%Q 1%Q 50 1 1 2 0 5 1 false 1%Q 0%Q.

#[export] Instance library : Externals := {|
  Tokenizer := unit;
  Model := unit;
  Rng := nat;
  from_pretrained_tokenizer := fun _ _ _ => inr tt;
  from_pretrained_model := fun _ _ _ => inr tt;
  model_config := fun _ => attrs;
  tokenize := fun _ prompt => inr (encode prompt);
  generate := fun _ seed input gc => continue seed input gc;
  decode := fun _ tokens => inr (render tokens);
  split_response := fun response _ => inr response;
  detect_degeneration := fun _ _ => inr true;
  get_test_case_by_model_version := fun _ => inr (mkTestCase greedy "hi" "hiaaaaa");
  get_prompt := fun input _ => inr input;
  time_source := fun n => inject_Z (Z.of_nat n)
|}.

(** A trusted configuration for the checkpoint above, and the state of a
    process before the service object exists. *)
Definition config : SakuraModelConfig :=
  mkConfig "sakura" false true false 1 None None "0.8".

Definition boot : State :=
  mkState (default_config "" false) false None None 0%nat 0%nat [].

(** The service after a successful [SakuraModel(config)]. *)
Definition serving : State := snd (__init__ config boot).

Definition checkpoint : Model := tt.
Definition vocabulary : Tokenizer := tt.

(** The prompt ["ab"] as tokens, and what the stand-in model makes of it
    under [greedy] and under the two fallback configurations for a
    requested length of 1. *)
Definition short_prompt_tokens : list Z := [97; 98].
Definition first_generation : list Z := [97; 98; 97; 97; 97; 97; 97].
Definition second_generation : list Z := [97; 98; 99; 99].
Definition third_generation : list Z := [97; 98; 100; 100].

End Demo.

(** ** [get_model_response] cut at its statements

    Between threads the unit of execution is a statement, not the whole
    method.  This section names the pieces of lines 160-178: entering and
    leaving the [with] block, the statements inside it one by one, and the
    report after it. *)
Section Cut.
Context {E : Externals}.

(** A block of statements; each [Then] is one statement and what follows it. *)
Inductive Chain (A : Type) : Type :=
| Last (a : A)
| Then (B : Type) (act : M B) (k : B -> Chain A).
Arguments Last {A} a.
Arguments Then {A B} act k.

(** A block run without interruption. *)
Fixpoint run_chain {A : Type} (c : Chain A) : M A :=
  match c with
  | Last a => ret a
  | Then act k => bind act (fun b => run_chain (k b))
  end.

(** No statement of the block changes the lock. *)
Fixpoint keeps_lock {A : Type} (c : Chain A) : Prop :=
  match c with
  | Last _ => True
  | Then act k =>
      (forall s, lock (snd (act s)) = lock s) /\ (forall b, keeps_lock (k b))
  end.

(** [self.lock.acquire()] on entering the [with] block, and
    [self.lock.release()] on leaving it. *)
Definition acquire : M unit :=
  fun s => if lock s then (Blocked, s) else (Ret tt, set_lock true s).

Definition release : M unit := fun s => (Ret tt, set_lock false s).

(** The arguments of one call of [get_model_response]. *)
Record Call := mkCall {
  call_model : Model;
  call_tokenizer : Tokenizer;
  call_prompt : string;
  call_version : string;
  call_generation_config : GenerationConfig;
  call_text_length : Z;
  call_print_speed : bool
}.

(** What the [with] block hands to the rest of the method: [t0], the two
    token counts, the extracted text and [t1]. *)
Definition Measured : Type := (Q * Z * Z * string * Q)%type.

(** Lines 162-169, one statement at a time. *)
Definition critical_chain (c : Call) : Chain Measured :=
  Then time_time (fun t0 =>
  Then (run_tokenize (call_tokenizer c) (call_prompt c)) (fun input_token =>
  let input_token_len := Z.of_nat (length input_token) in
  Then (run_generate (call_model c) input_token (call_generation_config c))
       (fun generation =>
  let new_token := Z.of_nat (length generation) - input_token_len in
  Then (run_decode (call_tokenizer c) generation) (fun response =>
  Then (call (split_response response (call_version c))) (fun output =>
  Then time_time (fun t1 =>
  Last (t0, input_token_len, new_token, output, t1))))))).

(** Lines 171-178: the speed line and the response record. *)
Definition report_speed (is_print_speed : bool) (locked : Measured)
  : M ModelResponse :=
  let '(t0, input_token_len, new_token, output, t1) := locked in
  bind (if is_print_speed then
          if Qeq_bool (t1 - t0) 0 then raise ZeroDivisionError
          else log ModuleLogger INFO (MsgSpeed (t1 - t0) new_token input_token_len)
        else ret tt)
       (fun _ => ret (mkModelResponse input_token_len new_token output)).


(** Lines 133-143 of [completion]: everything up to the call of
    [get_model_response], yielding the arguments of that call. *)
Definition completion_prefix (prompt : string) (gc : GenerationConfig)
    (is_print_speed : bool) : M Call :=
  completion_with
    (fun mdl tok prompt version gc text_length is_print_speed =>
       ret (mkCall mdl tok prompt version gc text_length is_print_speed))
    prompt gc is_print_speed.

End Cut.

Arguments Last {E A} a.
Arguments Then {E A B} act k.

(** ** Several threads in [completion]

    The threads share the state of the service, its lock included.  A thread
    that calls [completion] runs the prefix, waits at [with self.lock],
    enters, runs the statements of the block one at a time, leaves, and
    reports.  Between any two of these steps other threads may run. *)
Module Concurrent.
Section Machine.
Context {E : Externals}.

(** Where a thread stands: not in a call, at [with self.lock], inside the
    block with [n] statements done and [rest] to do, past the block, or
    back with an outcome. *)
Inductive Thread :=
| Idle
| Waiting (c : Call)
| Inside (c : Call) (n : nat) (rest : Chain Measured)
| Outside (c : Call) (locked : Measured)
| Finished (o : Outcome ModelResponse).

Definition is_inside (t : Thread) : bool :=
  match t with
  | Inside _ _ _ => true
  | _ => false
  end.

(** What a step did with respect to the lock: entered the block, ran its
    statement number [n], ran statement [n] which raised (so that the block
    was left), or left the block at its end. *)
Inductive Label :=
| Acquire
| Critical (n : nat)
| Raised (n : nat)
| Release.

(** One step of a thread on the shared state, if it can take one.  A thread
    at the lock steps only when [acquire] returns; an exception inside the
    block leaves the block, which releases the lock. *)
Definition thread_step (t : Thread) (s : State)
  : option (Thread * State * option Label) :=
  match t with
  | Idle => None
  | Finished _ => None
  | Waiting c =>
      match acquire s with
      | (Ret _, s1) => Some (Inside c 0 (critical_chain c), s1, Some Acquire)
      | _ => None
      end
  | Inside c n (Then act k) =>
      match act s with
      | (Ret b, s1) => Some (Inside c (S n) (k b), s1, Some (Critical n))
      | (Raise e, s1) => Some (Finished (Raise e), snd (release s1), Some (Raised n))
      | (Exit code, s1) =>
          Some (Finished (Exit code), snd (release s1), Some (Raised n))
      | (Blocked, _) => None
      end
  | Inside c n (Last locked) =>
      Some (Outside c locked, snd (release s), Some Release)
  | Outside c locked =>
      let '(o, s1) := report_speed (call_print_speed c) locked s in
      Some (Finished o, s1, None)
  end.


(** The shared state, the threads, and the steps taken under the lock so
    far, newest first. *)
Record System := mkSystem {
  shared : State;
  pool : gmap nat Thread;
  critical_log : list (nat * Label)
}.

(** Thread [i] calls [completion]: the prefix runs, and the thread stands at
    the lock, or is back at once if the prefix raised. *)
Definition do_call (i : nat) (prompt : string) (gc : GenerationConfig)
    (is_print_speed : bool) (m : System) : System :=
  let '(o, s1) := completion_prefix prompt gc is_print_speed (shared m) in
  mkSystem s1
    (<[i := match o with
            | Ret c => Waiting c
            | Raise e => Finished (Raise e)
            | Exit code => Finished (Exit code)
            | Blocked => Finished Blocked
            end]> (pool m))
    (critical_log m).

(** The system after thread [i] took the step [r]. *)
Definition advance (i : nat) (r : Thread * State * option Label) (m : System)
  : System :=
  let '(t', s', label) := r in
  mkSystem s' (<[i := t']> (pool m))
    (match label with
     | Some a => (i, a) :: critical_log m
     | None => critical_log m
     end).

(** The caller of thread [i] takes the outcome; the thread can call again. *)
Definition do_return (i : nat) (m : System) : System :=
  mkSystem (shared m) (<[i := Idle]> (pool m)) (critical_log m).

(** Thread [i] takes its next step, if it has one. *)
Definition do_step (i : nat) (m : System) : System :=
  match pool m !! i with
  | Some t =>
      match thread_step t (shared m) with
      | Some r => advance i r m
      | None => m
      end
  | None => m
  end.

Inductive step : System -> System -> Prop :=
| step_call m i prompt gc is_print_speed :
    pool m !! i = Some Idle ->
    step m (do_call i prompt gc is_print_speed m)
| step_thread m i t r :
    pool m !! i = Some t ->
    thread_step t (shared m) = Some r ->
    step m (advance i r m)
| step_return m i o :
    pool m !! i = Some (Finished o) ->
    step m (do_return i m).

(** A constructed service nobody uses yet: the lock is free, no thread is in
    a call, nothing was done under the lock. *)
Definition initial (m : System) : Prop :=
  lock (shared m) = false /\ critical_log m = [] /\
  forall i t, pool m !! i = Some t -> t = Idle.

(** [a], done by thread [i], may come directly after the entry [previous]
    of the log: a block is entered only after another was left, and a
    statement of a block, or its end, comes directly after the step before
    it in the same block, by the same thread. *)
Definition follows (i : nat) (a : Label) (previous : option (nat * Label)) : bool :=
  match a, previous with
  | Acquire, None => true
  | Acquire, Some (_, Release) => true
  | Acquire, Some (_, Raised _) => true
  | Critical 0, Some (j, Acquire) => Nat.eqb i j
  | Critical (S n), Some (j, Critical n') => Nat.eqb i j && Nat.eqb n n'
  | Raised 0, Some (j, Acquire) => Nat.eqb i j
  | Raised (S n), Some (j, Critical n') => Nat.eqb i j && Nat.eqb n n'
  | Release, Some (j, Acquire) => Nat.eqb i j
  | Release, Some (j, Critical _) => Nat.eqb i j
  | _, _ => false
  end.

(** The log is a sequence of blocks, each entered, run statement by
    statement and left by one thread, with no step of another thread in
    between. *)
Fixpoint sequenced (l : list (nat * Label)) : bool :=
  match l with
  | [] => true
  | (i, a) :: rest => follows i a (head rest) && sequenced rest
  end.

(** The newest log entry when thread [i] is inside with [n] statements
    done. *)
Definition last_entry (i n : nat) : nat * Label :=
  (i, match n with
      | O => Acquire
      | S n' => Critical n'
      end).

(** The log ends with a block that was left. *)
Definition closed (l : list (nat * Label)) : Prop :=
  match head l with
  | None => True
  | Some (_, Release) => True
  | Some (_, Raised _) => True
  | Some (_, _) => False
  end.

Record invariant (m : System) : Prop := {
  free_means_empty :
    lock (shared m) = false ->
    closed (critical_log m) /\
    forall i t, pool m !! i = Some t -> is_inside t = false;
  held_means_inside :
    lock (shared m) = true ->
    exists i t, pool m !! i = Some t /\ is_inside t = true;
  at_most_one :
    forall i j ti tj,
      pool m !! i = Some ti -> pool m !! j = Some tj ->
      is_inside ti = true -> is_inside tj = true -> i = j;
  log_sequenced : sequenced (critical_log m) = true;
  inside_follows :
    forall i c n rest,
      pool m !! i = Some (Inside c n rest) ->
      keeps_lock rest /\ head (critical_log m) = Some (last_entry i n)
}.

End Machine.

(** Two threads on the stand-in service: both call [completion] on ["ab"];
    thread 0 enters the block, reads the clock and runs the tokenizer while
    thread 1 waits at the lock. *)
Definition two_idle : System :=
  mkSystem Demo.serving (<[0%nat := Idle]> (<[1%nat := Idle]> ∅)) [].

Definition both_called : System :=
  do_call 1 "ab" Demo.greedy false (do_call 0 "ab" Demo.greedy false two_idle).

Definition thread_0_ahead : System :=
  do_step 0 (do_step 0 (do_step 0 both_called)).

End Concurrent.

(** ** Counting what a run did *)

Definition is_generate (ev : Event) : bool :=
  match ev with EvGenerate _ => true | _ => false end.

Definition is_detect (ev : Event) : bool :=
  match ev with EvDetect _ => true | _ => false end.

(** How many times the model was run, and how many times the detector was
    asked, among some events. *)
Definition generations (evs : list Event) : nat := length (filter is_generate evs).
Definition detections (evs : list Event) : nat := length (filter is_detect evs).

(** ** A stand-in library that can fail

    The tokenizer refuses the empty prompt, the model refuses a negative
    budget, the registry knows version 0.8 only, the tokenizer constructor
    refuses the empty path, the detector refuses the empty version and flags
    a generation that ends in the greedy token, and the clock stands still. *)
Module Faulty.

Definition ends_in_repeat (tokens : list Z) : bool :=
  match last tokens with
  | Some t => t =? 97
  | None => false
  end.

#[export] Instance library : Externals := {|
  Tokenizer := unit;
  Model := unit;
  Rng := nat;
  from_pretrained_tokenizer := fun _ path _ =>
    if String.eqb path "" then inl (LibraryError "no such path") else inr tt;
  from_pretrained_model := fun _ _ _ => inr tt;
  model_config := fun _ => <["sakura_version" := "0.9"]> Demo.attrs;
  tokenize := fun _ prompt =>
    if String.eqb prompt "" then inl (LibraryError "empty prompt")
    else inr (Demo.encode prompt);
  generate := fun _ seed input gc =>
    if max_new_tokens gc <? 0 then (inl (LibraryError "no budget"), seed)
    else Demo.continue seed input gc;
  decode := fun _ tokens => inr (Demo.render tokens);
  split_response := fun response _ => inr response;
  detect_degeneration := fun tokens version =>
    if String.eqb version "" then inl (LibraryError "unknown version")
    else inr (ends_in_repeat tokens);
  get_test_case_by_model_version := fun version =>
    if String.eqb version "0.8"
    then inr (mkTestCase Demo.greedy "hi" "hiaaaaa")
    else inl (LibraryError "unknown version");
  get_prompt := fun input _ => inr input;
  time_source := fun _ => 0%Q
|}.

(** A constructed service over this library, declared as version 0.9. *)
Definition serving : State :=
  mkState (mkConfig "sakura" false true false 1 (Some "Sakura-13B-LNovel")
                    (Some "fp16") "0.9")
          false (Some tt) (Some tt) 0%nat 0%nat [].

(** The same service while some call holds the lock. *)
Definition busy : State :=
  mkState (cfg serving) true (Some tt) (Some tt) 0%nat 0%nat [].

Definition checkpoint : Model := tt.
Definition vocabulary : Tokenizer := tt.

(** A sampling configuration with the budget of [Demo.greedy]. *)
Definition sampling : GenerationConfig :=
  mkGenerationConfig 1%Q 1%Q 50 1 1 2 0 5 1 true 1%Q 0%Q.

End Faulty.

(** ** What a run may and may not change *)

Section Observations.
Context {E : Externals}.

(** The service object and the clock are as they were. *)
Definition same_object (s s' : State) : Prop :=
  cfg s' = cfg s /\ lock s' = lock s /\ tokenizer s' = tokenizer s /\
  model s' = model s /\ clock_reads s' = clock_reads s.

(** The call came back: it returned or raised, and neither waited on a lock
    nor left the process. *)
Definition came_back {A} (o : Outcome A) : Prop :=
  match o with
  | Ret _ | Raise _ => True
  | Exit _ | Blocked => False
  end.

End Observations.

(** ** Properties of the sequential service *)

Section ServiceProperties.
Context {E : Externals}.

(** Split on what a collaborator returned. *)
Ltac split_external :=
  match goal with
  | |- context [tokenize ?t ?p] => destruct (tokenize t p) eqn:?
  | |- context [generate ?m ?r ?i ?g] => destruct (generate m r i g) as [[?|?] ?] eqn:?
  | |- context [decode ?t ?g] => destruct (decode t g) eqn:?
  | |- context [split_response ?r ?v] => destruct (split_response r v) eqn:?
  | |- context [Qeq_bool ?a ?b] => destruct (Qeq_bool a b) eqn:?
  end.

Ltac unfold_monad :=
  unfold bind, ret, raise, exit, call, log, emit, time_time, get_cfg, set_cfg,
    modify_cfg, get_tokenizer, get_model, set_tokenizer, set_model, with_lock,
    set_lock, run_tokenize, run_generate, run_decode, run_detect in *.

Ltac run_monad := unfold_monad; cbn; repeat (split_external; cbn).

(** Reduce the projections of the states a run has built so far. *)
Ltac tidy :=
  cbn [fst snd emit cfg lock tokenizer model rng clock_reads trace].

(** A returning first half hands its value and state to the second. *)
Lemma bind_returns {A B} (m : M A) (k : A -> M B) s a s' :
  m s = (Ret a, s') -> bind m k s = k a s'.
Proof. intros H. unfold bind. now rewrite H. Qed.

(** *** Python's [max] and [in] *)

Lemma py_max_is_max a b : PyStr.max a b = Z.max a b.
Proof. unfold PyStr.max. destruct (Z.gtb_spec b a); lia. Qed.

(** The versions the error message of [load_model] names. *)
Lemma named_versions_are_substrings v :
  In v ["0.5"; "0.7"; "0.8"] -> PyStr.contains v "0.5 0.7 0.8" = true.
Proof. simpl. intros [<-|[<-|[<-|[]]]]; reflexivity. Qed.

(** *** [load_model] *)

(** The guard fires exactly on its own condition, and then nothing has
    happened yet: no log line, no constructor call. *)
Lemma load_model_configuration_error args s :
  load_model args s = (Raise (ValueError trust_flag_message), s) <->
  trust_remote_code args = false /\
  PyStr.contains (model_version args) "0.5 0.7 0.8" = true.
Proof.
  unfold load_model.
  destruct (trust_remote_code args), (PyStr.contains _ _); cbn [negb andb];
    (split; [ | intros [? ?]; try discriminate; reflexivity ]).
  all: intros H; try (split; reflexivity); exfalso; revert H; unfold_monad; cbn.
  all: destruct (from_pretrained_tokenizer _ _ _); cbn;
    try destruct (from_pretrained_model _ _ _); cbn; intros H;
    apply (f_equal (fun p => length (trace (snd p)))) in H; cbn in H;
    rewrite ?length_app in H; cbn in H; lia.
Qed.

(** With the trust flag set, [load_model] never stops at the guard. *)
Lemma load_model_trusted_starts_loading args s :
  trust_remote_code args = true ->
  exists evs, trace (snd (load_model args s)) =
    (trace s ++ EvLog ModuleLogger INFO MsgLoadingModel :: evs)%list.
Proof.
  intros Ht. unfold load_model. rewrite Ht. cbn [negb andb]. unfold_monad. cbn.
  destruct (from_pretrained_tokenizer _ _ _); cbn;
    try destruct (from_pretrained_model _ _ _); cbn;
    rewrite <- ?app_assoc; cbn; eauto.
Qed.

(** C1 (as the code behaves): the guard of [load_model] is a substring test
    against ["0.5 0.7 0.8"], so a configuration without the trust flag and
    with version ["0"], which is none of 0.5, 0.7 and 0.8, is refused with
    the configuration error before any loading step. *)
Theorem load_model_refuses_version_outside_named_set (s : State) :
  let args := mkConfig "sakura" false false false 512 None None "0" in
  ~ In (model_version args) ["0.5"; "0.7"; "0.8"] /\
  load_model args s = (Raise (ValueError trust_flag_message), s).
Proof.
  split.
  - cbn. intros [H|[H|[H|[]]]]; discriminate H.
  - reflexivity.
Qed.

(** *** [get_max_text_length] *)

(** C5: for every non-negative [length], [get_max_text_length] returns
    the larger of the configured [text_length] and [length], and changes
    nothing. *)
Theorem get_max_text_length_is_max (length : Z) (s : State) :
  0 <= length ->
  get_max_text_length length s = (Ret (Z.max (text_length (cfg s)) length), s).
Proof.
  intros _. unfold get_max_text_length. unfold_monad. cbn.
  now rewrite py_max_is_max.
Qed.

(** *** [get_model_response] and [completion] *)

(** What a returning [get_model_response] went through. *)
Lemma get_model_response_returns mdl tok prompt version gc tl ips s r s' :
  get_model_response mdl tok prompt version gc tl ips s = (Ret r, s') ->
  lock s = false /\
  exists input generation response output,
    tokenize tok prompt = inr input /\
    generate mdl (rng s) input gc = (inr generation, rng s') /\
    decode tok generation = inr response /\
    split_response response version = inr output /\
    r = mkModelResponse (Z.of_nat (length input))
          (Z.of_nat (length generation) - Z.of_nat (length input)) output.
Proof.
  unfold get_model_response. destruct s as [c l t m g n tr].
  destruct l, ips; run_monad; intros H; inversion H; subst; clear H;
    (split; [reflexivity|]); cbn;
    eexists _, _, _, _; repeat split; eauto.
Qed.

(** [get_model_response] on a free lock, when every collaborator returns. *)
Lemma get_model_response_runs mdl tok prompt version gc tl ips s
      input generation g response output :
  lock s = false ->
  tokenize tok prompt = inr input ->
  generate mdl (rng s) input gc = (inr generation, g) ->
  decode tok generation = inr response ->
  split_response response version = inr output ->
  let r := mkModelResponse (Z.of_nat (length input))
             (Z.of_nat (length generation) - Z.of_nat (length input)) output in
  let s1 := after_generation s prompt gc generation g in
  let dt := (time_source (S (clock_reads s)) - time_source (clock_reads s))%Q in
  get_model_response mdl tok prompt version gc tl ips s =
    if ips then
      if Qeq_bool dt 0 then (Raise ZeroDivisionError, s1)
      else (Ret r, snd (log ModuleLogger INFO
                          (MsgSpeed dt (new_token r) (context_token r)) s1))
    else (Ret r, s1).
Proof.
  intros Hl Ht Hg Hd Hs. unfold get_model_response, after_generation.
  destruct s as [c l t m g0 n tr]. cbn in Hl, Hg. subst l.
  unfold_monad. cbn. rewrite Ht. cbn. rewrite Hg. cbn. rewrite Hd. cbn.
  rewrite Hs. cbn.
  destruct ips; [destruct (Qeq_bool _ _)|]; cbn; rewrite <- ?app_assoc; reflexivity.
Qed.

(** [get_model_response] touches the lock, the generator, the clock and
    the trace, and nothing else; the lock is as it found it. *)
Lemma get_model_response_frame mdl tok prompt version gc tl ips s :
  let s' := snd (get_model_response mdl tok prompt version gc tl ips s) in
  cfg s' = cfg s /\ tokenizer s' = tokenizer s /\ model s' = model s /\
  lock s' = lock s.
Proof.
  unfold get_model_response.
  destruct s as [c l t m g n tr]. destruct l, ips; run_monad; auto.
Qed.

(** [completion] on a constructed service is [get_model_response] on the
    service's own model, tokenizer and version, after the configuration
    has been logged. *)
Lemma completion_unfold prompt gc ips s mdl tok :
  model s = Some mdl -> tokenizer s = Some tok ->
  completion prompt gc ips s =
    get_model_response mdl tok prompt (model_version (cfg s)) gc
      (PyStr.max (text_length (cfg s)) (PyStr.len prompt)) ips
      (snd (emit (EvLogGenerationConfig gc) s)).
Proof.
  intros Hm Ht. unfold completion, completion_with, get_max_text_length.
  unfold bind at 1. cbn. unfold bind at 1, get_model. cbn. rewrite Hm.
  unfold bind at 1, get_tokenizer. cbn. rewrite Ht. reflexivity.
Qed.

Lemma completion_frame prompt gc ips s :
  let s' := snd (completion prompt gc ips s) in
  cfg s' = cfg s /\ tokenizer s' = tokenizer s /\ model s' = model s /\
  lock s' = lock s.
Proof.
  cbn zeta.
  destruct (model s) as [mdl|] eqn:Hm; [destruct (tokenizer s) as [tok|] eqn:Ht|].
  - rewrite (completion_unfold _ _ _ _ _ _ Hm Ht).
    rewrite <- Hm, <- Ht.
    apply (get_model_response_frame mdl tok prompt _ gc _ ips
             (snd (emit (EvLogGenerationConfig gc) s))).
  - rewrite <- Hm, <- Ht. unfold completion, completion_with, bind at 1. cbn.
    unfold bind at 1, get_model. cbn.
    rewrite Hm. unfold bind at 1, get_tokenizer. cbn. rewrite Ht. cbn. auto.
  - rewrite <- Hm. unfold completion, completion_with, bind at 1. cbn.
    unfold bind at 1, get_model. cbn. rewrite Hm. cbn. auto.
Qed.

(** A [completion] that returns ran on a bound model and tokenizer. *)
Lemma completion_returns_bound prompt gc ips s r s' :
  completion prompt gc ips s = (Ret r, s') ->
  exists mdl tok, model s = Some mdl /\ tokenizer s = Some tok.
Proof.
  intros Hrun.
  destruct (model s) as [mdl|] eqn:Hm;
    [|exfalso; revert Hrun; unfold completion, completion_with, bind at 1; cbn;
      unfold bind at 1, get_model; cbn; rewrite Hm; discriminate].
  destruct (tokenizer s) as [tok|] eqn:Ht;
    [|exfalso; revert Hrun; unfold completion, completion_with, bind at 1; cbn;
      unfold bind at 1, get_model; cbn; rewrite Hm;
      unfold bind at 1, get_tokenizer; cbn; rewrite Ht; discriminate].
  eauto.
Qed.

(** C10: [completion] and [get_model_response] leave the configuration
    record, the tokenizer binding, the model binding and the lock as they
    found them, whatever the outcome; what a returning call hands back is
    the response record built from the token counts and the extracted
    text. *)
Theorem completion_leaves_service_unchanged prompt gc ips (s : State) :
  let s' := snd (completion prompt gc ips s) in
  (cfg s' = cfg s /\ tokenizer s' = tokenizer s /\ model s' = model s /\
   lock s' = lock s) /\
  (forall mdl tok version tl,
      let s'' := snd (get_model_response mdl tok prompt version gc tl ips s) in
      cfg s'' = cfg s /\ tokenizer s'' = tokenizer s /\ model s'' = model s /\
      lock s'' = lock s) /\
  (forall r, fst (completion prompt gc ips s) = Ret r ->
     exists mdl tok input generation g response,
       model s = Some mdl /\ tokenizer s = Some tok /\
       tokenize tok prompt = inr input /\
       generate mdl (rng s) input gc = (inr generation, g) /\
       decode tok generation = inr response /\
       split_response response (model_version (cfg s)) = inr (text r) /\
       context_token r = Z.of_nat (length input) /\
       new_token r = Z.of_nat (length generation) - Z.of_nat (length input)).
Proof.
  cbn zeta. split; [|split].
  - apply completion_frame.
  - intros. apply get_model_response_frame.
  - intros r Hr.
    destruct (completion prompt gc ips s) as [o s'] eqn:Hrun.
    cbn in Hr. subst o.
    destruct (completion_returns_bound _ _ _ _ _ _ Hrun) as (mdl & tok & Hm & Ht).
    rewrite (completion_unfold _ _ _ _ _ _ Hm Ht) in Hrun.
    apply get_model_response_returns in Hrun
      as (_ & input & generation & response & output & H1 & H2 & H3 & H4 & ->).
    exists mdl, tok, input, generation, (rng s'), response. cbn. eauto 10.
Qed.

Lemma get_model_response_reconfigure mdl tok prompt version gc tl tl' ips n s :
  get_model_response mdl tok prompt version gc tl ips (reconfigure n s) =
  (fst (get_model_response mdl tok prompt version gc tl' ips s),
   reconfigure n (snd (get_model_response mdl tok prompt version gc tl' ips s))).
Proof.
  unfold get_model_response, reconfigure.
  destruct s as [c l t m g k tr]. destruct l, ips; run_monad; reflexivity.
Qed.

(** The body of [completion] on a constructed service, whatever method it
    calls. *)
Lemma completion_with_unfold {R : Type}
    (callee : Model -> Tokenizer -> string -> string -> GenerationConfig -> Z ->
              bool -> M R) prompt gc ips s mdl tok :
  model s = Some mdl -> tokenizer s = Some tok ->
  completion_with callee prompt gc ips s =
    callee mdl tok prompt (model_version (cfg s)) gc
      (PyStr.max (text_length (cfg s)) (PyStr.len prompt)) ips
      (snd (emit (EvLogGenerationConfig gc) s)).
Proof.
  intros Hm Ht. unfold completion_with, get_max_text_length.
  unfold bind at 1. cbn. unfold bind at 1, get_model. cbn. rewrite Hm.
  unfold bind at 1, get_tokenizer. cbn. rewrite Ht. reflexivity.
Qed.

(** C2 (amended): [completion] computes max(configured [text_length],
    [len(prompt)]) and hands exactly that value to the method it calls, in
    the [text_length] position; [get_model_response] never reads it.  So
    the value bounds nothing: a returned response counts every token that
    [model.generate] produced under the caller's generation configuration,
    and the outcome of [completion] is the same under every configured
    default. *)
Theorem completion_text_length_computed_not_enforced prompt gc ips s mdl tok :
  model s = Some mdl -> tokenizer s = Some tok ->
  (forall (R : Type)
          (callee : Model -> Tokenizer -> string -> string -> GenerationConfig ->
                    Z -> bool -> M R),
      completion_with callee prompt gc ips s =
        callee mdl tok prompt (model_version (cfg s)) gc
          (Z.max (text_length (cfg s)) (PyStr.len prompt)) ips
          (snd (emit (EvLogGenerationConfig gc) s))) /\
  (forall tl tl' version s0,
      get_model_response mdl tok prompt version gc tl ips s0 =
      get_model_response mdl tok prompt version gc tl' ips s0) /\
  (forall r s',
      completion prompt gc ips s = (Ret r, s') ->
      exists input generation,
        tokenize tok prompt = inr input /\
        generate mdl (rng s) input gc = (inr generation, rng s') /\
        context_token r = Z.of_nat (length input) /\
        new_token r = Z.of_nat (length generation) - Z.of_nat (length input)) /\
  (forall n,
      completion prompt gc ips (reconfigure n s) =
        (fst (completion prompt gc ips s),
         reconfigure n (snd (completion prompt gc ips s)))).
Proof.
  intros Hm Ht. split; [|split; [|split]].
  - intros R callee. rewrite <- py_max_is_max. now apply completion_with_unfold.
  - reflexivity.
  - intros r s' Hrun.
    rewrite (completion_unfold _ _ _ _ _ _ Hm Ht) in Hrun.
    apply get_model_response_returns in Hrun
      as (_ & input & generation & response & output & H1 & H2 & H3 & H4 & ->).
    exists input, generation. cbn in H2. cbn. auto.
  - intros n.
    rewrite (completion_unfold prompt gc ips s mdl tok Hm Ht).
    rewrite (completion_unfold prompt gc ips (reconfigure n s) mdl tok Hm Ht).
    apply (get_model_response_reconfigure mdl tok prompt _ gc _ _ ips n
             (snd (emit (EvLogGenerationConfig gc) s))).
Qed.

(** *** [SakuraModel.__init__] *)

Lemma read_identity_some attrs name version quant :
  attrs !! "sakura_name" = Some name ->
  attrs !! "sakura_version" = Some version ->
  attrs !! "sakura_quant" = Some quant ->
  read_identity attrs = Some (name, version, quant).
Proof. unfold read_identity. now intros -> -> ->. Qed.

(** [__init__] after a load that returned: the bindings are made and the
    guard runs. *)
Lemma init_after_load c s tok mdl s1 :
  load_model c (snd (init_prologue c s)) = (Ret (tok, mdl), s1) ->
  __init__ c s =
    version_guard (snd (bind (set_tokenizer tok) (fun _ => set_model mdl) s1)).
Proof.
  intros Hload. unfold __init__.
  rewrite (bind_returns (init_prologue c) _ s tt (snd (init_prologue c s)))
    by reflexivity.
  rewrite (bind_returns _ _ _ _ _ Hload). reflexivity.
Qed.

Lemma load_model_keeps_cfg args s : cfg (snd (load_model args s)) = cfg s.
Proof.
  unfold load_model. destruct (negb _ && _); [reflexivity|].
  unfold_monad. cbn.
  destruct (from_pretrained_tokenizer _ _ _); cbn;
    try destruct (from_pretrained_model _ _ _); reflexivity.
Qed.

(** C3: when the load has returned, construction ends the process through
    [exit(-1)], a non-zero status, if one of [sakura_name],
    [sakura_version], [sakura_quant] is missing from the model's config or
    the reported version differs from the declared one; otherwise it
    returns and the configuration record carries the reported name,
    version and quant. *)
Theorem init_guards_model_identity c s tok mdl s1 :
  load_model c (snd (init_prologue c s)) = (Ret (tok, mdl), s1) ->
  let attrs := model_config mdl in
  (attrs !! "sakura_name" = None \/ attrs !! "sakura_version" = None \/
   attrs !! "sakura_quant" = None \/
   attrs !! "sakura_version" <> Some (model_version c) ->
   fst (__init__ c s) = Exit (-1) /\ exit_status (-1) <> 0 /\
   cfg (snd (__init__ c s)) = c) /\
  (forall name quant,
      attrs !! "sakura_name" = Some name ->
      attrs !! "sakura_version" = Some (model_version c) ->
      attrs !! "sakura_quant" = Some quant ->
      fst (__init__ c s) = Ret tt /\
      model_name (cfg (snd (__init__ c s))) = Some name /\
      model_version (cfg (snd (__init__ c s))) = model_version c /\
      model_quant (cfg (snd (__init__ c s))) = Some quant /\
      tokenizer (snd (__init__ c s)) = Some tok /\
      model (snd (__init__ c s)) = Some mdl).
Proof.
  intros Hload attrs.
  assert (Hcfg : cfg s1 = c).
  { apply (f_equal (fun p => cfg (snd p))) in Hload. cbn [snd] in Hload.
    rewrite <- Hload, load_model_keeps_cfg. reflexivity. }
  rewrite (init_after_load c s tok mdl s1 Hload).
  unfold version_guard. unfold bind at 1, try_read_identity. cbn. fold attrs.
  split.
  - intros Hbad.
    destruct (read_identity attrs) as [[[name version] quant]|] eqn:Hid.
    + unfold read_identity in Hid.
      destruct (attrs !! "sakura_name") as [n|] eqn:Hn; [|discriminate].
      destruct (attrs !! "sakura_version") as [v|] eqn:Hv; [|discriminate].
      destruct (attrs !! "sakura_quant") as [q|] eqn:Hq; [|discriminate].
      inversion Hid; subst n v q; clear Hid.
      destruct Hbad as [H|[H|[H|H]]]; try discriminate H.
      unfold_monad. cbn. rewrite Hcfg.
      destruct (String.eqb_spec (model_version c) version) as [Heq|Hne];
        [exfalso; apply H; now rewrite Heq|].
      cbn. split; [reflexivity|split; [discriminate|auto]].
    + unfold_monad. cbn. split; [reflexivity|split; [discriminate|auto]].
  - intros name quant Hn Hv Hq.
    rewrite (read_identity_some attrs name _ quant Hn Hv Hq).
    unfold_monad. cbn. rewrite Hcfg, String.eqb_refl. cbn. auto 10.
Qed.

(** *** [check_model_by_magic] *)

(** C6: [check_model_by_magic] sends the test case of the configured
    version through [completion] with speed printing off.  When that
    returns a response, the check returns [true] if the response text
    equals the expected output, logging only the two debug lines, and
    otherwise returns [false] after four warning records (notice, prompt,
    expected output, actual response); it neither raises nor exits. *)
Theorem check_model_by_magic_compares_exactly s tc prompt output s1 :
  get_test_case_by_model_version (model_version (cfg s)) = inr tc ->
  get_prompt (test_input tc) (model_version (cfg s)) = inr prompt ->
  completion prompt (generation_config tc) false s = (Ret output, s1) ->
  let expected := test_output tc in
  let debug := [EvLog ModuleLogger DEBUG (MsgTestOutput output);
                EvLog ModuleLogger DEBUG (MsgGroundTruthDebug expected)] in
  let warnings := [EvLog RootLogger WARNING MsgOutputNotCorrect;
                   EvLog RootLogger WARNING (MsgInput prompt);
                   EvLog RootLogger WARNING (MsgGroundTruth expected);
                   EvLog RootLogger WARNING (MsgCurrentOutput output)] in
  (text output = expected ->
   fst (check_model_by_magic s) = Ret true /\
   trace (snd (check_model_by_magic s)) = (trace s1 ++ debug)%list) /\
  (text output <> expected ->
   fst (check_model_by_magic s) = Ret false /\
   trace (snd (check_model_by_magic s)) = (trace s1 ++ debug ++ warnings)%list).
Proof.
  intros Htc Hp Hrun expected debug warnings.
  assert (Htest : test_loaded s = (Ret (prompt, expected, output), s1)).
  { unfold test_loaded. unfold bind at 1, get_cfg. cbn.
    unfold bind at 1. rewrite Htc. cbn.
    unfold bind at 1. rewrite Hp. cbn.
    rewrite (bind_returns _ _ _ _ _ Hrun). reflexivity. }
  unfold check_model_by_magic. rewrite (bind_returns _ _ _ _ _ Htest).
  split; intros Hcmp.
  - rewrite Hcmp, String.eqb_refl. unfold_monad. cbn.
    rewrite <- app_assoc. split; reflexivity.
  - destruct (String.eqb_spec expected (text output)) as [Heq|_];
      [congruence|].
    unfold_monad. cbn. rewrite <- !app_assoc. split; reflexivity.
Qed.

(** *** Determinism *)

(** C8: if the library's generation does not depend on the random
    generator when sampling is off, then after a [completion] that
    returned a response under a non-sampling configuration, a second
    [completion] of the same prompt under the same configuration returns
    the same text, and with speed printing off it does return, with the
    same response. *)
Theorem completion_repeats_without_sampling prompt gc ips s r1 s1 :
  (forall mdl g g' input gc', do_sample gc' = false ->
      fst (generate mdl g input gc') = fst (generate mdl g' input gc')) ->
  do_sample gc = false ->
  completion prompt gc ips s = (Ret r1, s1) ->
  (forall ips' r2 s2,
      completion prompt gc ips' s1 = (Ret r2, s2) -> text r2 = text r1) /\
  (exists s2, completion prompt gc false s1 = (Ret r1, s2)).
Proof.
  intros Hgreedy Hgc Hrun.
  destruct (completion_returns_bound _ _ _ _ _ _ Hrun) as (mdl & tok & Hm & Ht).
  pose proof (completion_frame prompt gc ips s) as Hframe.
  cbn zeta in Hframe. rewrite Hrun in Hframe. cbn [snd] in Hframe.
  destruct Hframe as (Hc1 & Ht1 & Hm1 & Hl1).
  rewrite Hm in Hm1. rewrite Ht in Ht1.
  rewrite (completion_unfold _ _ _ _ _ _ Hm Ht) in Hrun.
  apply get_model_response_returns in Hrun
    as (Hl & input & generation & response & output & Htok & Hgen & Hdec & Hsplit & Hr).
  cbn in Hl. rewrite Hl in Hl1.
  assert (Hgen1 : generate mdl (rng s1) input gc =
                  (inr generation, snd (generate mdl (rng s1) input gc))).
  { pose proof (Hgreedy mdl (rng s1) (rng (snd (emit (EvLogGenerationConfig gc) s)))
                  input gc Hgc) as Hfst.
    rewrite Hgen in Hfst. cbn [fst] in Hfst.
    destruct (generate mdl (rng s1) input gc). cbn in *. now subst. }
  assert (Hsecond : forall ips',
    completion prompt gc ips' s1 =
      get_model_response mdl tok prompt (model_version (cfg s)) gc
        (PyStr.max (text_length (cfg s)) (PyStr.len prompt)) ips'
        (snd (emit (EvLogGenerationConfig gc) s1))).
  { intros ips'. rewrite (completion_unfold _ _ _ _ _ _ Hm1 Ht1), Hc1.
    reflexivity. }
  split.
  - intros ips' r2 s2 Hrun2. rewrite Hsecond in Hrun2.
    apply get_model_response_returns in Hrun2
      as (_ & input2 & generation2 & response2 & output2
          & Htok2 & Hgen2 & Hdec2 & Hsplit2 & Hr2).
    cbn in Hgen2. rewrite Htok in Htok2. inversion Htok2; subst input2.
    rewrite Hgen1 in Hgen2. inversion Hgen2; subst generation2.
    rewrite Hdec in Hdec2. inversion Hdec2; subst response2.
    rewrite Hsplit in Hsplit2. inversion Hsplit2; subst output2.
    subst r1 r2. reflexivity.
  - rewrite Hsecond.
    erewrite (get_model_response_runs mdl tok prompt _ gc _ false
                (snd (emit (EvLogGenerationConfig gc) s1)));
      [ rewrite Hr; eexists; reflexivity | cbn; assumption | eassumption
      | cbn; eassumption | eassumption | eassumption ].
Qed.

(** *** [get_model_response_anti_degen] *)

Lemma run_detect_returns generation version s b :
  detect_degeneration generation version = inr b ->
  run_detect generation version s = (Ret b, snd (emit (EvDetect generation) s)).
Proof. intros H. unfold run_detect. unfold_monad. cbn. now rewrite H. Qed.

Lemma run_detect_trace generation version s :
  trace (snd (run_detect generation version s)) =
  (trace s ++ [EvDetect generation])%list.
Proof.
  unfold run_detect. unfold_monad. cbn.
  destruct (detect_degeneration generation version); reflexivity.
Qed.

Lemma regenerate_extends mdl tok prompt backup stage s :
  exists evs, trace (snd (regenerate mdl tok prompt backup stage s)) =
              (trace s ++ evs)%list.
Proof.
  unfold regenerate. unfold_monad. cbn.
  destruct (tokenize tok prompt); cbn; [eauto|].
  destruct (py_index backup (stage - 1)); cbn; [eauto|].
  destruct (generate _ _ _ _) as [[?|?] ?]; cbn; rewrite <- app_assoc; eauto.
Qed.

(** One regeneration, when the tokenizer and the model return. *)
Lemma regenerate_returns mdl tok prompt backup stage s input gc generation g :
  tokenize tok prompt = inr input ->
  py_index backup (stage - 1) = inr gc ->
  generate mdl (rng s) input gc = (inr generation, g) ->
  regenerate mdl tok prompt backup stage s =
    (Ret generation,
     mkState (cfg s) (lock s) (tokenizer s) (model s) g (clock_reads s)
             (trace s ++ [EvTokenize prompt; EvGenerate gc])).
Proof.
  intros Ht Hi Hg. unfold regenerate. unfold_monad. cbn.
  rewrite Ht. cbn. rewrite Hi. cbn. rewrite Hg. cbn.
  now rewrite <- app_assoc.
Qed.

(** The three ways one turn of the loop goes when the detector returns. *)
Lemma degeneration_loop_clean mdl tok prompt version backup stage generation s :
  detect_degeneration generation version = inr false ->
  degeneration_loop mdl tok prompt version backup stage generation s =
    (Ret generation, snd (emit (EvDetect generation) s)).
Proof.
  intros H. simp degeneration_loop.
  rewrite (run_detect_returns _ _ _ _ H). now simp degeneration_loop.
Qed.

Lemma degeneration_loop_gives_up mdl tok prompt version backup stage generation s :
  detect_degeneration generation version = inr true ->
  stage + 1 > 2 ->
  degeneration_loop mdl tok prompt version backup stage generation s =
    (Ret generation,
     snd (emit (EvPrint "model degeneration cannot be avoided.")
               (snd (emit (EvDetect generation) s)))).
Proof.
  intros H Hstage. simp degeneration_loop.
  rewrite (run_detect_returns _ _ _ _ H). simp degeneration_loop.
  destruct (Z_gt_le_dec (stage + 1) 2); [|lia]. now simp degeneration_loop.
Qed.

Lemma degeneration_loop_retries mdl tok prompt version backup stage generation s
      generation' s2 :
  detect_degeneration generation version = inr true ->
  stage + 1 <= 2 ->
  regenerate mdl tok prompt backup (stage + 1) (snd (emit (EvDetect generation) s)) =
    (Ret generation', s2) ->
  degeneration_loop mdl tok prompt version backup stage generation s =
    degeneration_loop mdl tok prompt version backup (stage + 1) generation' s2.
Proof.
  intros H Hstage Hregen. simp degeneration_loop.
  rewrite (run_detect_returns _ _ _ _ H). simp degeneration_loop.
  destruct (Z_gt_le_dec (stage + 1) 2); [lia|]. simp degeneration_loop.
  rewrite Hregen. now simp degeneration_loop.
Qed.

(** Whatever the loop does, it starts by asking the detector about the
    generation it was entered with. *)
Lemma degeneration_loop_detects_first mdl tok prompt version backup stage generation s :
  exists evs,
    trace (snd (degeneration_loop mdl tok prompt version backup stage generation s)) =
    (trace s ++ EvDetect generation :: evs)%list.
Proof.
  funelim (degeneration_loop mdl tok prompt version backup stage generation s);
    try match goal with
        | Hd : run_detect ?g ?v ?s = (_, ?s1) |- _ =>
            pose proof (run_detect_trace g v s) as Htr;
            rewrite Hd in Htr; cbn [snd] in Htr
        end;
    try match goal with
        | Hr : regenerate ?m ?t ?p ?b ?st ?s1 = (_, ?s2) |- _ =>
            destruct (regenerate_extends m t p b st s1) as [evs' Hext];
            rewrite Hr in Hext; cbn [snd] in Hext
        end;
    cbn [snd].
  1-4: exists []; assumption.
  - exists [EvPrint "model degeneration cannot be avoided."].
    unfold emit. cbn. rewrite Htr, <- app_assoc. reflexivity.
  - destruct H as [evs Hrec]. rewrite Hrec, Hext, Htr, <- !app_assoc. cbn. eauto.
  - rewrite Hext, Htr, <- !app_assoc. cbn. eauto.
  - rewrite Hext, Htr, <- !app_assoc. cbn. eauto.
  - rewrite Hext, Htr, <- !app_assoc. cbn. eauto.
Qed.

Lemma run_tokenize_returns tok prompt s input :
  tokenize tok prompt = inr input ->
  run_tokenize tok prompt s = (Ret input, snd (emit (EvTokenize prompt) s)).
Proof. intros H. unfold_monad. cbn. now rewrite H. Qed.

Lemma run_generate_returns mdl input gc s generation g :
  generate mdl (rng s) input gc = (inr generation, g) ->
  run_generate mdl input gc s =
    (Ret generation,
     mkState (cfg s) (lock s) (tokenizer s) (model s) g (clock_reads s)
             (trace s ++ [EvGenerate gc])).
Proof. intros H. unfold_monad. cbn. now rewrite H. Qed.

(** The tail of the function: decode and split what the loop left. *)
Lemma decode_split_trace tok generation version s :
  trace (snd (bind (run_decode tok generation)
                   (fun response => call (split_response response version)) s)) =
  (trace s ++ [EvDecode generation])%list.
Proof.
  unfold_monad. cbn. destruct (decode tok generation); cbn; [reflexivity|].
  destruct (split_response _ _); reflexivity.
Qed.

(** C4: when the first generation is long enough to be examined and the
    detector flags it and both regenerations, the function regenerates
    exactly twice, with the stage-2 and then the stage-3 configuration,
    prints that degeneration cannot be avoided, does not regenerate a
    third time, and returns the extracted text of the last generation. *)
Theorem anti_degen_gives_up_after_two_fallbacks
    mdl tok prompt version gc tl s input g0 r0 g1 r1 g2 r2 response output :
  tokenize tok prompt = inr input ->
  generate mdl (rng s) input gc = (inr g0, r0) ->
  Z.of_nat (length g0) > 2 * tl ->
  detect_degeneration g0 version = inr true ->
  generate mdl r0 input (backup_generation_config_stage2 tl) = (inr g1, r1) ->
  detect_degeneration g1 version = inr true ->
  generate mdl r1 input (backup_generation_config_stage3 tl) = (inr g2, r2) ->
  detect_degeneration g2 version = inr true ->
  decode tok g2 = inr response ->
  split_response response version = inr output ->
  let run := get_model_response_anti_degen mdl tok prompt version gc tl s in
  fst run = Ret output /\
  events_since s (snd run) =
    [EvTokenize prompt; EvGenerate gc; EvDetect g0;
     EvTokenize prompt; EvGenerate (backup_generation_config_stage2 tl); EvDetect g1;
     EvTokenize prompt; EvGenerate (backup_generation_config_stage3 tl); EvDetect g2;
     EvPrint "model degeneration cannot be avoided."; EvDecode g2].
Proof.
  intros Ht Hg0 Hlen Hd0 Hg1 Hd1 Hg2 Hd2 Hdec Hsplit run.
  destruct s as [c l t m g n tr]. cbn [rng] in Hg0.
  assert (Hrun : run =
    (Ret output,
     mkState c l t m r2 n
       (tr ++ [EvTokenize prompt; EvGenerate gc; EvDetect g0;
               EvTokenize prompt; EvGenerate (backup_generation_config_stage2 tl);
               EvDetect g1;
               EvTokenize prompt; EvGenerate (backup_generation_config_stage3 tl);
               EvDetect g2;
               EvPrint "model degeneration cannot be avoided."; EvDecode g2]))).
  { subst run. unfold get_model_response_anti_degen. cbn zeta.
    rewrite (bind_returns _ _ _ _ _ (run_tokenize_returns tok prompt _ input Ht)).
    tidy.
    erewrite (bind_returns _ _ _ _ _ (run_generate_returns mdl input gc _ g0 r0 _)).
    tidy.
    destruct (Z.gtb_spec (Z.of_nat (length g0)) (2 * tl)) as [_|Hle]; [|lia].
    unfold bind at 1.
    erewrite degeneration_loop_retries;
      [ | exact Hd0 | lia
        | tidy; eapply regenerate_returns; [exact Ht | reflexivity | exact Hg1] ].
    tidy.
    erewrite degeneration_loop_retries;
      [ | exact Hd1 | lia
        | tidy; eapply regenerate_returns; [exact Ht | reflexivity | exact Hg2] ].
    tidy.
    rewrite degeneration_loop_gives_up by (assumption || lia).
    tidy. unfold_monad. cbn. rewrite Hdec. cbn. rewrite Hsplit. cbn.
    rewrite <- !app_assoc. reflexivity.
    Unshelve. exact Hg0. }
  rewrite Hrun. split; [reflexivity|].
  unfold events_since. cbn [snd trace]. apply drop_app_length.
Qed.

(** C7: the detector is consulted exactly when the first generation is
    longer than twice [text_length]; otherwise the first generation is
    decoded and split, nothing is regenerated, and that text (or the
    exception of the decode or split step) is the result. *)
Theorem anti_degen_detector_gate mdl tok prompt version gc tl s input g0 r0 :
  tokenize tok prompt = inr input ->
  generate mdl (rng s) input gc = (inr g0, r0) ->
  let run := get_model_response_anti_degen mdl tok prompt version gc tl s in
  let events := events_since s (snd run) in
  ((exists tokens, In (EvDetect tokens) events) <->
   Z.of_nat (length g0) > 2 * tl) /\
  (Z.of_nat (length g0) <= 2 * tl ->
   events = [EvTokenize prompt; EvGenerate gc; EvDecode g0] /\
   fst run = match decode tok g0 with
             | inl e => Raise e
             | inr response =>
                 match split_response response version with
                 | inl e => Raise e
                 | inr output => Ret output
                 end
             end).
Proof.
  intros Ht Hg0 run events.
  destruct s as [c l t m g n tr]. cbn [rng] in Hg0.
  assert (Hfirst : run =
    bind (if Z.of_nat (length g0) >? 2 * tl
          then degeneration_loop mdl tok prompt version
                 (backup_generation_config tl) 0 g0
          else ret g0)
         (fun generation =>
            bind (run_decode tok generation)
                 (fun response => call (split_response response version)))
         (mkState c l t m r0 n (tr ++ [EvTokenize prompt; EvGenerate gc]))).
  { subst run. unfold get_model_response_anti_degen. cbn zeta.
    rewrite (bind_returns _ _ _ _ _ (run_tokenize_returns tok prompt _ input Ht)).
    tidy.
    erewrite (bind_returns _ _ _ _ _ (run_generate_returns mdl input gc _ g0 r0 _)).
    tidy. rewrite <- app_assoc. reflexivity.
    Unshelve. exact Hg0. }
  assert (Hshort : Z.of_nat (length g0) <= 2 * tl ->
    events = [EvTokenize prompt; EvGenerate gc; EvDecode g0] /\
    fst run = match decode tok g0 with
              | inl e => Raise e
              | inr response =>
                  match split_response response version with
                  | inl e => Raise e
                  | inr output => Ret output
                  end
              end).
  { intros Hle. subst events. rewrite Hfirst.
    destruct (Z.gtb_spec (Z.of_nat (length g0)) (2 * tl)) as [Hgt|_]; [lia|].
    unfold events_since. unfold_monad. cbn.
    destruct (decode tok g0); cbn;
      [|destruct (split_response _ _); cbn];
      (split; [rewrite <- ?app_assoc; apply drop_app_length|reflexivity]). }
  split; [|exact Hshort].
  split.
  - intros [tokens Hin].
    destruct (Z_gt_le_dec (Z.of_nat (length g0)) (2 * tl)) as [Hgt|Hle]; [exact Hgt|].
    destruct (Hshort Hle) as [Hev _]. rewrite Hev in Hin.
    cbn in Hin. destruct Hin as [H|[H|[H|[]]]]; discriminate H.
  - intros Hgt. exists g0. subst events. rewrite Hfirst.
    destruct (Z.gtb_spec (Z.of_nat (length g0)) (2 * tl)) as [_|Hle]; [|lia].
    unfold bind at 1.
    match goal with
    | |- context [degeneration_loop ?m ?t ?p ?v ?b ?st ?g ?s0] =>
        destruct (degeneration_loop_detects_first m t p v b st g s0) as [evs Hloop];
        destruct (degeneration_loop m t p v b st g s0) as [[g'| | |] s3]
    end; cbn [snd trace] in Hloop; rewrite <- app_assoc in Hloop;
      cbn [app] in Hloop.
    + pose proof (decode_split_trace tok g' version s3) as Htail.
      match goal with
      | |- context [bind ?a ?k s3] => destruct (bind a k s3) as [o s4]
      end.
      cbn [snd] in *. rewrite Hloop, <- app_assoc in Htail. cbn [app] in Htail.
      unfold events_since. cbn [trace]. rewrite Htail, drop_app_length.
      cbn. auto.
    + unfold events_since. cbn [snd trace]. rewrite Hloop, drop_app_length.
      cbn. auto.
    + unfold events_since. cbn [snd trace]. rewrite Hloop, drop_app_length.
      cbn. auto.
    + unfold events_since. cbn [snd trace]. rewrite Hloop, drop_app_length.
      cbn. auto.
Qed.

(** ** Further properties of [load_model] and [__init__] *)

(** [PyStr.startswith] and [PyStr.contains] are the prefix and the
    substring relation. *)
Lemma append_cons a p q : String.append (String a p) q = String a (String.append p q).
Proof. reflexivity. Qed.

Lemma startswith_spec p s :
  PyStr.startswith p s = true <-> exists post, s = String.append p post.
Proof.
  revert s. induction p as [|a p IH]; intros s; cbn [PyStr.startswith].
  - split; [intros _; now exists s|reflexivity].
  - destruct s as [|b s].
    + split; [discriminate|intros [post H]; rewrite append_cons in H; discriminate H].
    + destruct (Ascii.eqb_spec a b) as [->|Hne].
      * rewrite IH. split; intros [post H]; exists post; rewrite append_cons in *;
          congruence.
      * split; [discriminate|].
        intros [post H]. rewrite append_cons in H. congruence.
Qed.

Lemma contains_spec needle hay :
  PyStr.contains needle hay = true <->
  exists pre post, hay = String.append pre (String.append needle post).
Proof.
  induction hay as [|a hay IH].
  - cbn [PyStr.contains]. rewrite orb_false_r, startswith_spec. split.
    + intros [post H]. now exists EmptyString, post.
    + intros [pre [post H]]. destruct pre as [|b pre]; [now exists post|].
      rewrite append_cons in H. discriminate H.
  - cbn [PyStr.contains]. rewrite orb_true_iff, startswith_spec, IH. split.
    + intros [[post H]|[pre [post H]]].
      * now exists EmptyString, post.
      * exists (String a pre), post. rewrite append_cons. now rewrite H.
    + intros [pre [post H]]. destruct pre as [|b pre].
      * left. now exists post.
      * right. exists pre, post. rewrite append_cons in H. congruence.
Qed.

(** X1: for a configuration that sets neither [use_gptq_model] nor [llama]
    (so that nothing is imported first), [load_model] stops with the
    trust-flag error, before any log line or constructor call, exactly when
    [trust_remote_code] is false and the declared version occurs somewhere
    inside the text ["0.5 0.7 0.8"]. *)
Theorem load_model_refuses_substrings args (s : State) :
  use_gptq_model args = false -> llama args = false ->
  (load_model args s = (Raise (ValueError trust_flag_message), s) <->
   trust_remote_code args = false /\
   exists pre post,
     "0.5 0.7 0.8" = String.append pre (String.append (model_version args) post)).
Proof.
  intros _ _. rewrite load_model_configuration_error, contains_spec. reflexivity.
Qed.

(** X2: an unquantized configuration that keeps the dataclass defaults (no
    trust flag, no [llama], version 0.8) cannot construct a service,
    whatever the path: [__init__] raises the trust-flag error after patching
    the samplers and creating the lock, and loads nothing. *)
Theorem default_config_cannot_construct path (s : State) :
  let run := __init__ (default_config path false) s in
  fst run = Raise (ValueError trust_flag_message) /\
  events_since s (snd run) = [EvHijackSamplers] /\
  cfg (snd run) = default_config path false /\
  lock (snd run) = false /\
  tokenizer (snd run) = tokenizer s /\ model (snd run) = model s.
Proof.
  destruct s as [c l t m g n tr]. cbn zeta.
  unfold __init__, init_prologue, events_since. unfold_monad. cbn.
  repeat split. apply drop_app_length.
Qed.

Lemma load_model_passes_guard args s :
  trust_remote_code args = true \/
  PyStr.contains (model_version args) "0.5 0.7 0.8" = false ->
  load_model args s =
    bind (log ModuleLogger INFO MsgLoadingModel) (fun _ =>
    let tctor := if llama args then LlamaTokenizer_ctor else AutoTokenizer_ctor in
    bind (emit (EvLoadTokenizer tctor (model_name_or_path args)
                  (trust_remote_code args))) (fun _ =>
    bind (call (from_pretrained_tokenizer tctor (model_name_or_path args)
                  (trust_remote_code args))) (fun tok =>
    let mctor := if use_gptq_model args then AutoGPTQ_ctor
                 else if llama args then LlamaForCausalLM_ctor
                      else AutoModelForCausalLM_ctor in
    bind (emit (EvLoadModel mctor (model_name_or_path args)
                  (trust_remote_code args))) (fun _ =>
    bind (call (from_pretrained_model mctor (model_name_or_path args)
                  (trust_remote_code args))) (fun mdl =>
    ret (tok, mdl)))))) s.
Proof.
  intros Hpass. unfold load_model.
  destruct Hpass as [H|H]; rewrite H; [|rewrite andb_false_r]; reflexivity.
Qed.

(** X3: when the tokenizer constructor raises, [load_model] raises the same
    exception, unchanged, and never calls a model constructor. *)
Theorem load_model_tokenizer_failure args (s : State) e :
  trust_remote_code args = true \/
  PyStr.contains (model_version args) "0.5 0.7 0.8" = false ->
  from_pretrained_tokenizer
    (if llama args then LlamaTokenizer_ctor else AutoTokenizer_ctor)
    (model_name_or_path args) (trust_remote_code args) = inl e ->
  fst (load_model args s) = Raise e /\
  events_since s (snd (load_model args s)) =
    [EvLog ModuleLogger INFO MsgLoadingModel;
     EvLoadTokenizer (if llama args then LlamaTokenizer_ctor else AutoTokenizer_ctor)
       (model_name_or_path args) (trust_remote_code args)].
Proof.
  intros Hpass Hfail. rewrite (load_model_passes_guard args s Hpass).
  destruct s as [c l t m g n tr]. unfold events_since. unfold_monad. cbn.
  rewrite Hfail. cbn. split; [reflexivity|].
  rewrite <- app_assoc. apply drop_app_length.
Qed.

(** What a returning [load_model] did. *)
Lemma load_model_returns args (s : State) tok mdl s' :
  load_model args s = (Ret (tok, mdl), s') ->
  let path := model_name_or_path args in
  let trust := trust_remote_code args in
  let tctor := if llama args then LlamaTokenizer_ctor else AutoTokenizer_ctor in
  let mctor := if use_gptq_model args then AutoGPTQ_ctor
               else if llama args then LlamaForCausalLM_ctor
                    else AutoModelForCausalLM_ctor in
  (trust = true \/ PyStr.contains (model_version args) "0.5 0.7 0.8" = false) /\
  from_pretrained_tokenizer tctor path trust = inr tok /\
  from_pretrained_model mctor path trust = inr mdl /\
  events_since s s' =
    [EvLog ModuleLogger INFO MsgLoadingModel;
     EvLoadTokenizer tctor path trust; EvLoadModel mctor path trust] /\
  cfg s' = cfg s /\ lock s' = lock s /\
  tokenizer s' = tokenizer s /\ model s' = model s.
Proof.
  intros Hload path trust tctor mctor.
  assert (Hpass : trust = true \/
                  PyStr.contains (model_version args) "0.5 0.7 0.8" = false).
  { subst trust. unfold load_model in Hload.
    destruct (trust_remote_code args); [now left|right].
    destruct (PyStr.contains _ _); [discriminate Hload|reflexivity]. }
  split; [exact Hpass|].
  rewrite (load_model_passes_guard args s Hpass) in Hload.
  destruct s as [c l t m g n tr]. unfold events_since.
  revert Hload. unfold_monad. cbn. fold path trust tctor mctor.
  destruct (from_pretrained_tokenizer tctor path trust) as [e|tok']; cbn;
    [discriminate|].
  destruct (from_pretrained_model mctor path trust) as [e|mdl']; cbn;
    [discriminate|].
  intros Hload. inversion Hload; subst. cbn.
  repeat split. rewrite <- !app_assoc. apply drop_app_length.
Qed.

(** X4: a [load_model] that returns went past the guard, built the tokenizer
    first with the Llama class exactly when [llama] is set, then the model
    with AutoGPTQ when [use_gptq_model] is set (whatever [llama] says), else
    with the Llama class when [llama] is set, else with the generic class;
    both constructors received the configured path and trust flag, and
    nothing else happened. *)
Theorem load_model_constructor_choice args (s : State) tok mdl s' :
  load_model args s = (Ret (tok, mdl), s') ->
  let path := model_name_or_path args in
  let trust := trust_remote_code args in
  let tctor := if llama args then LlamaTokenizer_ctor else AutoTokenizer_ctor in
  let mctor := if use_gptq_model args then AutoGPTQ_ctor
               else if llama args then LlamaForCausalLM_ctor
                    else AutoModelForCausalLM_ctor in
  (trust = true \/ PyStr.contains (model_version args) "0.5 0.7 0.8" = false) /\
  from_pretrained_tokenizer tctor path trust = inr tok /\
  from_pretrained_model mctor path trust = inr mdl /\
  events_since s s' =
    [EvLog ModuleLogger INFO MsgLoadingModel;
     EvLoadTokenizer tctor path trust; EvLoadModel mctor path trust] /\
  cfg s' = cfg s /\ lock s' = lock s /\
  tokenizer s' = tokenizer s /\ model s' = model s.
Proof. apply load_model_returns. Qed.

(** [__init__] that returned: the load returned, the three attributes were
    there, the versions agreed, and the object is bound and back-filled. *)
Lemma init_returns c s s' :
  __init__ c s = (Ret tt, s') ->
  exists tok mdl s1 name quant,
    load_model c (snd (init_prologue c s)) = (Ret (tok, mdl), s1) /\
    read_identity (model_config mdl) = Some (name, model_version c, quant) /\
    s' = mkState (with_model_quant quant
                    (with_model_version (model_version c) (with_model_name name c)))
                 false (Some tok) (Some mdl) (rng s1) (clock_reads s1) (trace s1).
Proof.
  intros Hrun.
  destruct (load_model c (snd (init_prologue c s))) as [[[tok mdl]|e|code|] s1] eqn:Hload;
    try (exfalso; revert Hrun; unfold __init__;
         rewrite (bind_returns (init_prologue c) _ s tt (snd (init_prologue c s)))
           by reflexivity;
         unfold bind at 1; rewrite Hload; discriminate).
  pose proof (load_model_returns c _ tok mdl s1 Hload)
    as (_ & _ & _ & _ & Hcfg & Hlock & _ & _).
  cbn in Hcfg, Hlock.
  rewrite (init_after_load c s tok mdl s1 Hload) in Hrun.
  exists tok, mdl, s1. revert Hrun.
  destruct s1 as [c1 l1 t1 m1 g1 n1 tr1]. cbn in Hcfg, Hlock. subst c1 l1.
  unfold version_guard, try_read_identity. unfold_monad. cbn.
  destruct (read_identity (model_config mdl)) as [[[name version] quant]|]; cbn;
    [|discriminate].
  destruct (String.eqb_spec (model_version c) version) as [<-|Hne]; cbn;
    [|discriminate].
  intros Hrun. inversion Hrun; subst. exists name, quant. auto.
Qed.

(** X5: when the version guard stops the process, the load is already done
    and both bindings are made; a missing attribute leaves one error record,
    a version mismatch leaves two, the first with the declared and the
    reported version and the second with the reported identity, and the
    configuration record is not back-filled. *)
Theorem init_guard_failure_is_logged c (s : State) tok mdl s1 :
  load_model c (snd (init_prologue c s)) = (Ret (tok, mdl), s1) ->
  let s' := snd (__init__ c s) in
  tokenizer s' = Some tok /\ model s' = Some mdl /\
  (read_identity (model_config mdl) = None ->
   events_since s1 s' = [EvLog ModuleLogger ERROR MsgAttrsMissing] /\
   cfg s' = c) /\
  (forall name version quant,
      read_identity (model_config mdl) = Some (name, version, quant) ->
      version <> model_version c ->
      events_since s1 s' =
        [EvLog ModuleLogger ERROR (MsgVersionCheckFailed (model_version c) version);
         EvLog ModuleLogger ERROR (MsgCurrentConfig name version quant)] /\
      cfg s' = c).
Proof.
  intros Hload. cbn zeta.
  pose proof (load_model_returns c _ tok mdl s1 Hload)
    as (_ & _ & _ & _ & Hcfg & _).
  cbn in Hcfg.
  rewrite (init_after_load c s tok mdl s1 Hload).
  destruct s1 as [c1 l1 t1 m1 g1 n1 tr1]. cbn in Hcfg. subst c1.
  unfold version_guard, try_read_identity, events_since. unfold_monad. cbn.
  destruct (read_identity (model_config mdl)) as [[[name version] quant]|]; cbn.
  - destruct (String.eqb_spec (model_version c) version) as [Heq|Hne]; cbn.
    + split; [reflexivity|]. split; [reflexivity|]. split; [discriminate|].
      intros name' version' quant' Hid Hdiff. inversion Hid; subst.
      now contradiction Hdiff.
    + split; [reflexivity|]. split; [reflexivity|]. split; [discriminate|].
      intros name' version' quant' Hid Hdiff. inversion Hid; subst.
      split; [|reflexivity]. rewrite <- app_assoc. apply drop_app_length.
  - split; [reflexivity|]. split; [reflexivity|]. split.
    + intros _. split; [apply drop_app_length|reflexivity].
    + discriminate.
Qed.

(** X6: a construction that returns keeps every field the operator supplied
    (path, flags, text length, version), fills in name and quant, leaves the
    lock free, the generator and the clock untouched, and leaves exactly four
    events: the sampler patch, the loading line and the two constructor
    calls. *)
Theorem init_success_state c (s s' : State) :
  __init__ c s = (Ret tt, s') ->
  exists name quant,
    cfg s' = mkConfig (model_name_or_path c) (use_gptq_model c) (trust_remote_code c)
                      (llama c) (text_length c) (Some name) (Some quant)
                      (model_version c) /\
    lock s' = false /\ rng s' = rng s /\ clock_reads s' = clock_reads s /\
    events_since s s' =
      [EvHijackSamplers; EvLog ModuleLogger INFO MsgLoadingModel;
       EvLoadTokenizer (if llama c then LlamaTokenizer_ctor else AutoTokenizer_ctor)
         (model_name_or_path c) (trust_remote_code c);
       EvLoadModel (if use_gptq_model c then AutoGPTQ_ctor
                    else if llama c then LlamaForCausalLM_ctor
                         else AutoModelForCausalLM_ctor)
         (model_name_or_path c) (trust_remote_code c)].
Proof.
  intros Hrun.
  destruct (init_returns c s s' Hrun)
    as (tok & mdl & s1 & name & quant & Hload & Hid & ->).
  exists name, quant.
  assert (Hpass : trust_remote_code c = true \/
                  PyStr.contains (model_version c) "0.5 0.7 0.8" = false)
    by apply (load_model_returns c _ tok mdl s1 Hload).
  rewrite (load_model_passes_guard c _ Hpass) in Hload.
  destruct s as [c0 l t m g n tr]. revert Hload.
  unfold init_prologue, events_since. unfold_monad. cbn.
  destruct (from_pretrained_tokenizer _ _ _); cbn; [discriminate|].
  destruct (from_pretrained_model _ _ _); cbn; [discriminate|].
  intros Hload. inversion Hload; subst. cbn.
  repeat split. rewrite <- !app_assoc. apply drop_app_length.
Qed.

(** [get_model_response] waits exactly when the lock is held, and then
    nothing has happened. *)
Lemma get_model_response_blocked mdl tok prompt version gc tl ips s :
  (fst (get_model_response mdl tok prompt version gc tl ips s) = Blocked <->
   lock s = true) /\
  (lock s = true ->
   get_model_response mdl tok prompt version gc tl ips s = (Blocked, s)).
Proof.
  unfold get_model_response. destruct s as [c l t m g n tr].
  destruct l, ips; run_monad; split; (split || idtac);
    intros; try discriminate; reflexivity.
Qed.

(** X7: on a service whose construction returned, [completion] finds the
    model and the tokenizer bound and the lock free: it is
    [get_model_response] on the loaded pair under the declared version,
    which the model reported too, and it does not wait. *)
Theorem constructed_service_serves c (s s' : State) prompt gc ips :
  __init__ c s = (Ret tt, s') ->
  exists mdl tok,
    model s' = Some mdl /\ tokenizer s' = Some tok /\ lock s' = false /\
    model_config mdl !! "sakura_version" = Some (model_version c) /\
    completion prompt gc ips s' =
      get_model_response mdl tok prompt (model_version c) gc
        (Z.max (text_length c) (PyStr.len prompt)) ips
        (snd (emit (EvLogGenerationConfig gc) s')) /\
    fst (completion prompt gc ips s') <> Blocked.
Proof.
  intros Hrun.
  destruct (init_returns c s s' Hrun)
    as (tok & mdl & s1 & name & quant & Hload & Hid & ->).
  exists mdl, tok.
  assert (Hcompletion :
    completion prompt gc ips
      (mkState (with_model_quant quant
                  (with_model_version (model_version c) (with_model_name name c)))
               false (Some tok) (Some mdl) (rng s1) (clock_reads s1) (trace s1)) =
    get_model_response mdl tok prompt (model_version c) gc
      (Z.max (text_length c) (PyStr.len prompt)) ips
      (snd (emit (EvLogGenerationConfig gc)
              (mkState (with_model_quant quant
                          (with_model_version (model_version c)
                             (with_model_name name c)))
                       false (Some tok) (Some mdl) (rng s1) (clock_reads s1)
                       (trace s1))))).
  { rewrite <- py_max_is_max. now apply completion_unfold. }
  split; [reflexivity|]. split; [reflexivity|]. split; [reflexivity|].
  split; [|split].
  - unfold read_identity in Hid.
    destruct (model_config mdl !! "sakura_name"); [|discriminate].
    destruct (model_config mdl !! "sakura_version"); [|discriminate].
    destruct (model_config mdl !! "sakura_quant"); [|discriminate].
    congruence.
  - exact Hcompletion.
  - rewrite Hcompletion. intros Hblocked.
    apply get_model_response_blocked in Hblocked. discriminate Hblocked.
Qed.

(** ** The cut of [get_model_response] *)

(** [get_model_response] is the [with] block on the statements of
    [critical_chain], then [report_speed]. *)
Lemma get_model_response_cut mdl tok prompt version gc tl ips :
  get_model_response mdl tok prompt version gc tl ips =
  bind (with_lock (run_chain (critical_chain (mkCall mdl tok prompt version gc tl ips))))
       (report_speed ips).
Proof. reflexivity. Qed.

(** [with] is [acquire], the body, and [release] unless the body itself
    waits. *)
Lemma with_lock_acquire_release {A : Type} (body : M A) s :
  with_lock body s =
  match acquire s with
  | (Ret _, s1) =>
      match body s1 with
      | (Blocked, s') => (Blocked, s')
      | (o, s') => (o, snd (release s'))
      end
  | (_, s0) => (Blocked, s0)
  end.
Proof.
  unfold with_lock, acquire, release. destruct (lock s); [reflexivity|].
  cbn. destruct (body (set_lock true s)) as [[a|e|code|] s']; reflexivity.
Qed.


Lemma critical_chain_keeps_lock c : keeps_lock (critical_chain c).
Proof.
  unfold critical_chain. cbn.
  split; [intros s; reflexivity|]. intros t0.
  split; [intros s; unfold_monad; cbn; destruct (tokenize _ _); reflexivity|].
  intros input. split;
    [intros s; unfold_monad; cbn;
     destruct (generate _ _ _ _) as [[?|?] ?]; reflexivity|].
  intros generation.
  split; [intros s; unfold_monad; cbn; destruct (decode _ _); reflexivity|].
  intros response.
  split; [intros s; unfold call; destruct (split_response _ _); reflexivity|].
  intros output. split; [intros s; reflexivity|]. intros t1. exact I.
Qed.

Lemma report_speed_keeps_lock ips locked s :
  lock (snd (report_speed ips locked s)) = lock s.
Proof.
  destruct locked as [[[[t0 itl] nt] output] t1]. unfold report_speed.
  destruct ips; [destruct (Qeq_bool (t1 - t0) 0) eqn:Hz|];
    unfold_monad; cbn; rewrite ?Hz; reflexivity.
Qed.

Lemma completion_prefix_keeps_lock prompt gc ips s :
  lock (snd (completion_prefix prompt gc ips s)) = lock s.
Proof.
  unfold completion_prefix, completion_with, get_max_text_length.
  destruct s as [c l t m g n tr]. unfold_monad. cbn.
  destruct m as [mdl|]; cbn; [|reflexivity].
  destruct t as [tok|]; reflexivity.
Qed.

(** When every statement of the block returns, the block hands over the two
    clock readings, the token counts and the text, with the lock free
    again. *)
Lemma critical_section_runs mdl tok prompt version gc tl ips s
      input generation g response output :
  lock s = false ->
  tokenize tok prompt = inr input ->
  generate mdl (rng s) input gc = (inr generation, g) ->
  decode tok generation = inr response ->
  split_response response version = inr output ->
  with_lock (run_chain (critical_chain (mkCall mdl tok prompt version gc tl ips))) s =
    (Ret (time_source (clock_reads s), Z.of_nat (length input),
          Z.of_nat (length generation) - Z.of_nat (length input), output,
          time_source (S (clock_reads s))),
     after_generation s prompt gc generation g).
Proof.
  intros Hl Ht Hg Hd Hs. unfold after_generation, critical_chain.
  destruct s as [c l t m g0 n tr]. cbn in Hl, Hg. subst l.
  cbn [run_chain call_tokenizer call_prompt call_model call_generation_config
       call_version].
  unfold_monad. cbn. rewrite Ht. cbn. rewrite Hg. cbn. rewrite Hd. cbn.
  rewrite Hs. cbn. rewrite <- !app_assoc. reflexivity.
Qed.


(** ** Further properties of [get_model_response] *)

(** X8: the lock of [get_model_response] is not reentrant: a call made
    while the lock is held waits, and has then read no clock, run no library
    step and logged nothing; a call on a free lock never waits. *)
Theorem get_model_response_waits_iff_locked
    mdl tok prompt version gc tl ips (s : State) :
  (fst (get_model_response mdl tok prompt version gc tl ips s) = Blocked <->
   lock s = true) /\
  (lock s = true ->
   get_model_response mdl tok prompt version gc tl ips s = (Blocked, s)).
Proof. apply get_model_response_blocked. Qed.

(** X9: an exception of the tokenizer, the model, the decoder or the
    response splitter leaves [get_model_response] unchanged, the lock is
    free again afterwards, the later library steps are never run, and no
    speed line is logged. *)
Theorem get_model_response_propagates_errors
    mdl tok prompt version gc tl ips (s : State) :
  lock s = false ->
  let run := get_model_response mdl tok prompt version gc tl ips s in
  lock (snd run) = false /\
  (forall e, tokenize tok prompt = inl e ->
     fst run = Raise e /\ events_since s (snd run) = [EvTokenize prompt]) /\
  (forall input e g,
     tokenize tok prompt = inr input ->
     generate mdl (rng s) input gc = (inl e, g) ->
     fst run = Raise e /\
     events_since s (snd run) = [EvTokenize prompt; EvGenerate gc]) /\
  (forall input generation g e,
     tokenize tok prompt = inr input ->
     generate mdl (rng s) input gc = (inr generation, g) ->
     decode tok generation = inl e ->
     fst run = Raise e /\
     events_since s (snd run) =
       [EvTokenize prompt; EvGenerate gc; EvDecode generation]) /\
  (forall input generation g response e,
     tokenize tok prompt = inr input ->
     generate mdl (rng s) input gc = (inr generation, g) ->
     decode tok generation = inr response ->
     split_response response version = inl e ->
     fst run = Raise e /\
     events_since s (snd run) =
       [EvTokenize prompt; EvGenerate gc; EvDecode generation]).
Proof.
  intros Hfree. cbn zeta.
  split.
  { pose proof (get_model_response_frame mdl tok prompt version gc tl ips s)
      as (_ & _ & _ & Hlock).
    cbn zeta in Hlock. now rewrite Hlock. }
  unfold get_model_response, events_since.
  destruct s as [c l t m g0 n tr]. cbn in Hfree. subst l. cbn [rng].
  split; [|split; [|split]].
  - intros e He. unfold_monad. cbn. rewrite He. cbn.
    split; [reflexivity|apply drop_app_length].
  - intros input e g Ht Hg. unfold_monad. cbn. rewrite Ht. cbn. rewrite Hg. cbn.
    split; [reflexivity|]. rewrite <- app_assoc. apply drop_app_length.
  - intros input generation g e Ht Hg Hd. unfold_monad. cbn.
    rewrite Ht. cbn. rewrite Hg. cbn. rewrite Hd. cbn.
    split; [reflexivity|]. rewrite <- !app_assoc. apply drop_app_length.
  - intros input generation g response e Ht Hg Hd Hs. unfold_monad. cbn.
    rewrite Ht. cbn. rewrite Hg. cbn. rewrite Hd. cbn. rewrite Hs. cbn.
    split; [reflexivity|]. rewrite <- !app_assoc. apply drop_app_length.
Qed.

(** X10: when the two clock readings around the generation are equal and
    speed printing is on, the finished generation is lost.  The [with] block
    returns and leaves the lock free; the report that follows the block then
    divides by the elapsed time and raises [ZeroDivisionError], and no speed
    line is logged.  With speed printing off the same run returns its
    response. *)
Theorem get_model_response_stalled_clock
    mdl tok prompt version gc tl (s : State) input generation g response output :
  lock s = false ->
  tokenize tok prompt = inr input ->
  generate mdl (rng s) input gc = (inr generation, g) ->
  decode tok generation = inr response ->
  split_response response version = inr output ->
  (time_source (S (clock_reads s)) == time_source (clock_reads s))%Q ->
  let locked : Measured :=
    (time_source (clock_reads s), Z.of_nat (length input),
     Z.of_nat (length generation) - Z.of_nat (length input), output,
     time_source (S (clock_reads s))) in
  let s1 := after_generation s prompt gc generation g in
  (forall ips,
      get_model_response mdl tok prompt version gc tl ips =
      bind (with_lock
              (run_chain (critical_chain (mkCall mdl tok prompt version gc tl ips))))
           (report_speed ips)) /\
  (forall ips,
      with_lock
        (run_chain (critical_chain (mkCall mdl tok prompt version gc tl ips))) s =
      (Ret locked, s1)) /\
  lock s1 = false /\
  report_speed true locked s1 = (Raise ZeroDivisionError, s1) /\
  get_model_response mdl tok prompt version gc tl true s =
    (Raise ZeroDivisionError, s1) /\
  get_model_response mdl tok prompt version gc tl false s =
    (Ret (mkModelResponse (Z.of_nat (length input))
            (Z.of_nat (length generation) - Z.of_nat (length input)) output),
     s1).
Proof.
  intros Hfree Ht Hg Hd Hs Hclock locked s1.
  assert (Hzero : Qeq_bool
            (time_source (S (clock_reads s)) - time_source (clock_reads s)) 0 = true).
  { apply Qeq_bool_iff. rewrite Hclock. ring. }
  assert (Hblock : forall ips,
    with_lock
      (run_chain (critical_chain (mkCall mdl tok prompt version gc tl ips))) s =
    (Ret locked, s1)).
  { intros ips. now apply (critical_section_runs mdl tok prompt version gc tl ips s
                             input generation g response output). }
  assert (Hreport : report_speed true locked s1 = (Raise ZeroDivisionError, s1)).
  { unfold report_speed, locked. unfold bind. rewrite Hzero. reflexivity. }
  split; [intros ips; apply get_model_response_cut|].
  split; [exact Hblock|]. split; [reflexivity|]. split; [exact Hreport|].
  split.
  - rewrite get_model_response_cut. unfold bind at 1. rewrite Hblock. exact Hreport.
  - rewrite get_model_response_cut. unfold bind at 1. rewrite Hblock. reflexivity.
Qed.

(** X11: speed printing changes nothing but the log.  A call that returns
    with speed printing on returns the same response with it off; in both
    the [with] block ends in the same state with the lock free, and the
    report that follows the block then adds one INFO record carrying the
    difference of the two clock readings, which is not zero, and the two
    token counts. *)
Theorem print_speed_only_adds_a_record
    mdl tok prompt version gc tl (s : State) r s1 :
  get_model_response mdl tok prompt version gc tl true s = (Ret r, s1) ->
  let dt := (time_source (S (clock_reads s)) - time_source (clock_reads s))%Q in
  exists s0 locked,
    (forall ips,
        get_model_response mdl tok prompt version gc tl ips =
        bind (with_lock
                (run_chain (critical_chain (mkCall mdl tok prompt version gc tl ips))))
             (report_speed ips)) /\
    (forall ips,
        with_lock
          (run_chain (critical_chain (mkCall mdl tok prompt version gc tl ips))) s =
        (Ret locked, s0)) /\
    lock s0 = false /\
    ~ (dt == 0)%Q /\
    report_speed false locked s0 = (Ret r, s0) /\
    report_speed true locked s0 =
      (Ret r, snd (log ModuleLogger INFO
                     (MsgSpeed dt (new_token r) (context_token r)) s0)) /\
    get_model_response mdl tok prompt version gc tl false s = (Ret r, s0) /\
    s1 = snd (log ModuleLogger INFO
                (MsgSpeed dt (new_token r) (context_token r)) s0).
Proof.
  intros Hrun dt.
  pose proof Hrun as Hinv.
  apply get_model_response_returns in Hinv
    as (Hfree & input & generation & response & output & Ht & Hg & Hd & Hs & Hr).
  exists (after_generation s prompt gc generation (rng s1)),
         (time_source (clock_reads s), Z.of_nat (length input),
          Z.of_nat (length generation) - Z.of_nat (length input), output,
          time_source (S (clock_reads s))).
  assert (Hblock : forall ips,
    with_lock
      (run_chain (critical_chain (mkCall mdl tok prompt version gc tl ips))) s =
    (Ret (time_source (clock_reads s), Z.of_nat (length input),
          Z.of_nat (length generation) - Z.of_nat (length input), output,
          time_source (S (clock_reads s))),
     after_generation s prompt gc generation (rng s1))).
  { intros ips. now apply (critical_section_runs mdl tok prompt version gc tl ips s
                             input generation (rng s1) response output). }
  rewrite get_model_response_cut in Hrun. unfold bind at 1 in Hrun.
  rewrite Hblock in Hrun.
  assert (Hnz : Qeq_bool dt 0 = false).
  { subst dt. revert Hrun. unfold report_speed, bind.
    destruct (Qeq_bool _ 0); [discriminate|reflexivity]. }
  assert (Hloud : report_speed true
            (time_source (clock_reads s), Z.of_nat (length input),
             Z.of_nat (length generation) - Z.of_nat (length input), output,
             time_source (S (clock_reads s)))
            (after_generation s prompt gc generation (rng s1)) =
          (Ret r, snd (log ModuleLogger INFO
                         (MsgSpeed dt (new_token r) (context_token r))
                         (after_generation s prompt gc generation (rng s1))))).
  { rewrite Hr. unfold report_speed, bind. fold dt. rewrite Hnz. reflexivity. }
  split; [intros ips; apply get_model_response_cut|].
  split; [exact Hblock|]. split; [reflexivity|].
  split; [intros Heq; apply Qeq_bool_iff in Heq; congruence|].
  split; [rewrite Hr; reflexivity|]. split; [exact Hloud|].
  split.
  - rewrite get_model_response_cut. unfold bind at 1. rewrite Hblock.
    rewrite Hr. reflexivity.
  - rewrite Hloud in Hrun. now inversion Hrun.
Qed.

(** ** Further properties of the self test *)

(** [test_loaded], step by step. *)
Lemma test_loaded_unfold s :
  test_loaded s =
    match get_test_case_by_model_version (model_version (cfg s)) with
    | inl e => (Raise e, s)
    | inr testcase =>
        match get_prompt (test_input testcase) (model_version (cfg s)) with
        | inl e => (Raise e, s)
        | inr prompt =>
            match completion prompt (generation_config testcase) false s with
            | (Ret r, s1) => (Ret (prompt, test_output testcase, r), s1)
            | (Raise e, s1) => (Raise e, s1)
            | (Exit code, s1) => (Exit code, s1)
            | (Blocked, s1) => (Blocked, s1)
            end
        end
    end.
Proof.
  unfold test_loaded. unfold bind, get_cfg, call, raise, ret. cbv beta iota.
  destruct (get_test_case_by_model_version _) as [e|testcase]; cbv beta iota;
    [reflexivity|].
  destruct (get_prompt _ _) as [e|prompt]; cbv beta iota; reflexivity.
Qed.

Lemma test_loaded_frame s :
  let s' := snd (test_loaded s) in
  cfg s' = cfg s /\ tokenizer s' = tokenizer s /\ model s' = model s /\
  lock s' = lock s.
Proof.
  cbn zeta. rewrite test_loaded_unfold.
  destruct (get_test_case_by_model_version _) as [e|testcase]; [cbn; auto|].
  destruct (get_prompt _ _) as [e|prompt]; [cbn; auto|].
  pose proof (completion_frame prompt (generation_config testcase) false s)
    as Hframe.
  cbn zeta in Hframe.
  destruct (completion prompt (generation_config testcase) false s)
    as [[r| | |] s1]; exact Hframe.
Qed.

(** X12: the self test leaves the configuration record, the tokenizer and
    model bindings and the lock as it found them, whether it passes, fails,
    raises or waits. *)
Theorem check_model_by_magic_leaves_service_unchanged (s : State) :
  let s' := snd (check_model_by_magic s) in
  cfg s' = cfg s /\ tokenizer s' = tokenizer s /\ model s' = model s /\
  lock s' = lock s.
Proof.
  cbn zeta. pose proof (test_loaded_frame s) as Hframe. cbn zeta in Hframe.
  destruct (check_model_by_magic s) as [verdict s'] eqn:Hrun. cbn [snd].
  revert Hrun. unfold check_model_by_magic. unfold bind at 1.
  destruct (test_loaded s) as [[[[prompt expected] output]| | |] s1];
    cbn [snd] in Hframe;
    try (intros Hrun; inversion Hrun; subst; exact Hframe).
  destruct s1 as [c l t m g n tr]. cbn in Hframe.
  unfold_monad. cbn. destruct (String.eqb expected (text output)); cbn;
    intros Hrun; inversion Hrun; subst; exact Hframe.
Qed.

(** X13: when the registry has no test case for the configured version, or
    the prompt template raises, the self test raises that exception and has
    done nothing: no completion, no log record. *)
Theorem check_model_by_magic_lookup_failure (s : State) e :
  get_test_case_by_model_version (model_version (cfg s)) = inl e \/
  (exists testcase,
      get_test_case_by_model_version (model_version (cfg s)) = inr testcase /\
      get_prompt (test_input testcase) (model_version (cfg s)) = inl e) ->
  check_model_by_magic s = (Raise e, s).
Proof.
  intros Hfail. unfold check_model_by_magic, bind at 1.
  rewrite test_loaded_unfold.
  destruct Hfail as [Hcase|[testcase [Hcase Hprompt]]]; rewrite Hcase;
    [reflexivity|].
  rewrite Hprompt. reflexivity.
Qed.

(** X14: when the completion of the test prompt raises or waits, the self
    test ends the same way in the same state, without a debug or warning
    record and without a verdict. *)
Theorem check_model_by_magic_completion_failure (s : State) testcase prompt s1 :
  get_test_case_by_model_version (model_version (cfg s)) = inr testcase ->
  get_prompt (test_input testcase) (model_version (cfg s)) = inr prompt ->
  (forall e,
      completion prompt (generation_config testcase) false s = (Raise e, s1) ->
      check_model_by_magic s = (Raise e, s1)) /\
  (completion prompt (generation_config testcase) false s = (Blocked, s1) ->
   check_model_by_magic s = (Blocked, s1)).
Proof.
  intros Hcase Hprompt.
  split; [intros e Hrun|intros Hrun];
    unfold check_model_by_magic, bind at 1;
    rewrite test_loaded_unfold, Hcase, Hprompt, Hrun; reflexivity.
Qed.

(** ** Further properties of [get_model_response_anti_degen] *)

Lemma same_object_refl s : same_object s s.
Proof. repeat split. Qed.

Lemma same_object_trans s1 s2 s3 :
  same_object s1 s2 -> same_object s2 s3 -> same_object s1 s3.
Proof.
  unfold same_object. intros (?&?&?&?&?) (?&?&?&?&?). repeat split; congruence.
Qed.

Lemma run_detect_quiet generation version s :
  same_object s (snd (run_detect generation version s)) /\
  came_back (fst (run_detect generation version s)).
Proof.
  unfold run_detect. unfold_monad. cbn.
  destruct (detect_degeneration generation version); cbn; repeat split.
Qed.

Lemma run_tokenize_quiet tok prompt s :
  same_object s (snd (run_tokenize tok prompt s)) /\
  came_back (fst (run_tokenize tok prompt s)).
Proof.
  unfold_monad. cbn. destruct (tokenize tok prompt); cbn; repeat split.
Qed.

Lemma run_generate_quiet mdl input gc s :
  same_object s (snd (run_generate mdl input gc s)) /\
  came_back (fst (run_generate mdl input gc s)).
Proof.
  unfold_monad. cbn. destruct (generate _ _ _ _) as [[?|?] ?]; cbn; repeat split.
Qed.

Lemma regenerate_quiet mdl tok prompt backup stage s :
  same_object s (snd (regenerate mdl tok prompt backup stage s)) /\
  came_back (fst (regenerate mdl tok prompt backup stage s)).
Proof.
  unfold regenerate. unfold_monad. cbn.
  destruct (tokenize tok prompt); cbn; [repeat split|].
  destruct (py_index backup (stage - 1)); cbn; [repeat split|].
  destruct (generate _ _ _ _) as [[?|?] ?]; cbn; repeat split.
Qed.

Lemma degeneration_loop_quiet mdl tok prompt version backup stage generation s :
  same_object s
    (snd (degeneration_loop mdl tok prompt version backup stage generation s)) /\
  came_back (fst (degeneration_loop mdl tok prompt version backup stage generation s)).
Proof.
  funelim (degeneration_loop mdl tok prompt version backup stage generation s);
    try match goal with
        | Hd : run_detect ?g ?v ?s = (_, ?s1) |- _ =>
            pose proof (run_detect_quiet g v s) as [Hobj Hback];
            rewrite Hd in Hobj, Hback; cbn [fst snd] in Hobj, Hback
        end;
    try match goal with
        | Hr : regenerate ?m ?t ?p ?b ?st ?s1 = (_, ?s2) |- _ =>
            pose proof (regenerate_quiet m t p b st s1) as [Hobj' Hback'];
            rewrite Hr in Hobj', Hback'; cbn [fst snd] in Hobj', Hback'
        end;
    cbn [fst snd]; try contradiction.
  - split; [assumption|exact I].
  - split; [assumption|exact I].
  - split; [|exact I]. eapply same_object_trans; [exact Hobj|]. repeat split.
  - destruct H as [Hrec Hrecback]. split; [|assumption].
    eapply same_object_trans; [exact Hobj|].
    eapply same_object_trans; [exact Hobj'|exact Hrec].
  - split; [|exact I]. eapply same_object_trans; eassumption.
Qed.

Lemma call_quiet {A} (r : Exn + A) s :
  same_object s (snd (call r s)) /\ came_back (fst (call r s)).
Proof. destruct r; cbn; split; (apply same_object_refl || exact I). Qed.

Lemma run_decode_quiet tok generation s :
  same_object s (snd (run_decode tok generation s)) /\
  came_back (fst (run_decode tok generation s)).
Proof.
  unfold_monad. cbn. destruct (decode tok generation); cbn; repeat split.
Qed.

(** Two steps that come back and leave the object alone do so together. *)
Lemma bind_quiet {A B} (m : M A) (k : A -> M B) :
  (forall s, same_object s (snd (m s)) /\ came_back (fst (m s))) ->
  (forall a s, same_object s (snd (k a s)) /\ came_back (fst (k a s))) ->
  forall s, same_object s (snd (bind m k s)) /\ came_back (fst (bind m k s)).
Proof.
  intros Hm Hk s. unfold bind. destruct (Hm s) as [Hobj Hback].
  destruct (m s) as [[a| | |] s1]; cbn [fst snd] in *; try contradiction.
  - destruct (Hk a s1) as [Hobj' Hback']. split; [|assumption].
    eapply same_object_trans; eassumption.
  - split; [assumption|exact I].
Qed.

(** X15: the anti-degeneration path never takes the lock and never reads
    the clock: for every input it comes back (it returns or raises, it
    neither waits nor exits), also while another call holds the lock, and
    it leaves the configuration record, the bindings, the lock and the clock
    as they were. *)
Theorem anti_degen_takes_no_lock mdl tok prompt version gc tl (s : State) :
  let run := get_model_response_anti_degen mdl tok prompt version gc tl s in
  same_object s (snd run) /\ came_back (fst run).
Proof.
  cbn zeta. unfold get_model_response_anti_degen. cbn zeta.
  apply bind_quiet; [intros; apply run_tokenize_quiet|intros input].
  apply bind_quiet; [intros; apply run_generate_quiet|intros g0].
  apply bind_quiet.
  - intros s0. destruct (Z.of_nat (length g0) >? 2 * tl).
    + apply degeneration_loop_quiet.
    + split; [apply same_object_refl|exact I].
  - intros g'. apply bind_quiet; [intros; apply run_decode_quiet|intros response].
    intros s0. apply call_quiet.
Qed.

Lemma generations_app evs evs' :
  generations (evs ++ evs') = (generations evs + generations evs')%nat.
Proof. unfold generations. now rewrite filter_app, length_app. Qed.

Lemma detections_app evs evs' :
  detections (evs ++ evs') = (detections evs + detections evs')%nat.
Proof. unfold detections. now rewrite filter_app, length_app. Qed.

Lemma generations_cons ev evs :
  generations (ev :: evs) =
  ((if is_generate ev then 1 else 0) + generations evs)%nat.
Proof.
  unfold generations. rewrite filter_cons. destruct (is_generate ev); reflexivity.
Qed.

Lemma detections_cons ev evs :
  detections (ev :: evs) =
  ((if is_detect ev then 1 else 0) + detections evs)%nat.
Proof.
  unfold detections. rewrite filter_cons. destruct (is_detect ev); reflexivity.
Qed.

Lemma generations_nil : generations [] = 0%nat.
Proof. reflexivity. Qed.

Lemma detections_nil : detections [] = 0%nat.
Proof. reflexivity. Qed.

(** Count the events of a list whose head is known. *)
Ltac count_events :=
  repeat first [ rewrite generations_app | rewrite detections_app
               | rewrite generations_cons | rewrite detections_cons
               | rewrite generations_nil | rewrite detections_nil ];
  cbn [is_generate is_detect].

(** One regeneration runs the model at most once and never asks the
    detector. *)
Lemma regenerate_counts mdl tok prompt backup stage s :
  exists evs,
    trace (snd (regenerate mdl tok prompt backup stage s)) = (trace s ++ evs)%list /\
    (generations evs <= 1)%nat /\ detections evs = 0%nat.
Proof.
  unfold regenerate. unfold_monad. cbn.
  destruct (tokenize tok prompt); cbn;
    [exists [EvTokenize prompt]; split; [reflexivity|count_events; lia]|].
  destruct (py_index backup (stage - 1)); cbn;
    [exists [EvTokenize prompt]; split; [reflexivity|count_events; lia]|].
  destruct (generate _ _ _ _) as [[?|?] ?]; cbn; rewrite <- app_assoc;
    eexists; (split; [reflexivity|]); count_events; lia.
Qed.

(** From [stage] on, the loop runs the model at most [2 - stage] times and
    asks the detector at most once more than that. *)
Lemma degeneration_loop_counts mdl tok prompt version backup stage generation s :
  exists evs,
    trace (snd (degeneration_loop mdl tok prompt version backup stage generation s)) =
      (trace s ++ evs)%list /\
    (generations evs <= Z.to_nat (2 - stage))%nat /\
    (detections evs <= S (Z.to_nat (2 - stage)))%nat.
Proof.
  funelim (degeneration_loop mdl tok prompt version backup stage generation s);
    try match goal with
        | Hd : run_detect ?g ?v ?s = (_, ?s1) |- _ =>
            pose proof (run_detect_trace g v s) as Htr;
            rewrite Hd in Htr; cbn [snd] in Htr
        end;
    try match goal with
        | Hr : regenerate ?m ?t ?p ?b ?st ?s1 = (_, ?s2) |- _ =>
            destruct (regenerate_counts m t p b st s1) as (evs' & Hext & Hg' & Hd');
            rewrite Hr in Hext; cbn [snd] in Hext
        end;
    cbn [snd].
  1-4: exists [EvDetect generation]; split; [assumption|count_events; lia].
  - exists [EvDetect generation; EvPrint "model degeneration cannot be avoided."].
    unfold emit. cbn [snd trace]. rewrite Htr, <- app_assoc. cbn [app].
    split; [reflexivity|count_events; lia].
  - destruct H as (evs & Hrec & Hg & Hd).
    exists (EvDetect generation :: evs' ++ evs).
    rewrite Hrec, Hext, Htr, <- !app_assoc. cbn [app].
    split; [reflexivity|].
    count_events. lia.
  - exists (EvDetect generation :: evs').
    rewrite Hext, Htr, <- !app_assoc. cbn [app]. split; [reflexivity|].
    count_events. lia.
  - exists (EvDetect generation :: evs').
    rewrite Hext, Htr, <- !app_assoc. cbn [app]. split; [reflexivity|].
    count_events. lia.
  - exists (EvDetect generation :: evs').
    rewrite Hext, Htr, <- !app_assoc. cbn [app]. split; [reflexivity|].
    count_events. lia.
Qed.

(** X16: whatever the library and the detector do, one call of the
    anti-degeneration path runs the model at most three times and asks the
    detector at most three times. *)
Theorem anti_degen_is_bounded mdl tok prompt version gc tl (s : State) :
  let events :=
    events_since s (snd (get_model_response_anti_degen mdl tok prompt version gc tl s)) in
  (generations events <= 3)%nat /\ (detections events <= 3)%nat.
Proof.
  cbn zeta.
  assert (Hrun : exists evs,
    trace (snd (get_model_response_anti_degen mdl tok prompt version gc tl s)) =
      (trace s ++ evs)%list /\
    (generations evs <= 3)%nat /\ (detections evs <= 3)%nat).
  { unfold get_model_response_anti_degen. cbn zeta.
    destruct s as [c l t m g n tr].
    unfold bind at 1. unfold run_tokenize at 1. unfold_monad. cbn.
    destruct (tokenize tok prompt) as [e|input]; cbn;
      [exists [EvTokenize prompt]; split; [reflexivity|count_events; lia]|].
    destruct (generate mdl g input gc) as [[e|g0] g']; cbn;
      [exists [EvTokenize prompt; EvGenerate gc];
       rewrite <- app_assoc; split; [reflexivity|count_events; lia]|].
    rewrite <- app_assoc. cbn [app].
    destruct (Z.of_nat (length g0) >? 2 * tl).
    - match goal with
      | |- context [degeneration_loop ?m ?t ?p ?v ?b ?st ?gen ?s0] =>
          destruct (degeneration_loop_counts m t p v b st gen s0)
            as (evs & Hloop & Hg & Hd);
          destruct (degeneration_loop m t p v b st gen s0) as [[g1| | |] s3]
      end; cbn [snd trace] in Hloop; rewrite <- app_assoc in Hloop;
        cbn [app] in Hloop.
      + destruct s3 as [c3 l3 t3 m3 g3 n3 tr3]. cbn in Hloop. subst tr3. cbn.
        exists (EvTokenize prompt :: EvGenerate gc :: evs ++ [EvDecode g1]).
        split.
        * destruct (decode tok g1); cbn; [|destruct (split_response _ _); cbn];
            rewrite <- app_assoc; reflexivity.
        * count_events. lia.
      + exists (EvTokenize prompt :: EvGenerate gc :: evs). cbn [snd].
        split; [exact Hloop|].
        count_events. lia.
      + exists (EvTokenize prompt :: EvGenerate gc :: evs). cbn [snd].
        split; [exact Hloop|].
        count_events. lia.
      + exists (EvTokenize prompt :: EvGenerate gc :: evs). cbn [snd].
        split; [exact Hloop|].
        count_events. lia.
    - cbn. exists [EvTokenize prompt; EvGenerate gc; EvDecode g0]. split.
      + destruct (decode tok g0); cbn; [|destruct (split_response _ _); cbn];
          rewrite <- app_assoc; reflexivity.
      + count_events. lia. }
  destruct Hrun as (evs & Htrace & Hg & Hd).
  unfold events_since. rewrite Htrace, drop_app_length. split; assumption.
Qed.

(** X17: a first generation that is long enough to be examined and that the
    detector finds clean is returned as it is: the detector is asked once,
    nothing is regenerated and nothing is printed. *)
Theorem anti_degen_keeps_clean_first_generation
    mdl tok prompt version gc tl (s : State) input g0 r0 :
  tokenize tok prompt = inr input ->
  generate mdl (rng s) input gc = (inr g0, r0) ->
  Z.of_nat (length g0) > 2 * tl ->
  detect_degeneration g0 version = inr false ->
  let run := get_model_response_anti_degen mdl tok prompt version gc tl s in
  fst run = match decode tok g0 with
            | inl e => Raise e
            | inr response =>
                match split_response response version with
                | inl e => Raise e
                | inr output => Ret output
                end
            end /\
  events_since s (snd run) =
    [EvTokenize prompt; EvGenerate gc; EvDetect g0; EvDecode g0] /\
  rng (snd run) = r0.
Proof.
  intros Ht Hg0 Hlen Hd0 run.
  destruct s as [c l t m g n tr]. cbn [rng] in Hg0.
  assert (Hrun : run =
    (match decode tok g0 with
     | inl e => Raise e
     | inr response =>
         match split_response response version with
         | inl e => Raise e
         | inr output => Ret output
         end
     end,
     mkState c l t m r0 n
       (tr ++ [EvTokenize prompt; EvGenerate gc; EvDetect g0; EvDecode g0]))).
  { subst run. unfold get_model_response_anti_degen. cbn zeta.
    rewrite (bind_returns _ _ _ _ _ (run_tokenize_returns tok prompt _ input Ht)).
    tidy.
    erewrite (bind_returns _ _ _ _ _ (run_generate_returns mdl input gc _ g0 r0 _)).
    tidy.
    destruct (Z.gtb_spec (Z.of_nat (length g0)) (2 * tl)) as [_|Hle]; [|lia].
    unfold bind at 1. rewrite (degeneration_loop_clean _ _ _ _ _ _ _ _ Hd0).
    tidy. unfold_monad. cbn.
    destruct (decode tok g0); cbn; [|destruct (split_response _ _); cbn];
      rewrite <- !app_assoc; reflexivity.
    Unshelve. exact Hg0. }
  rewrite Hrun. split; [reflexivity|]. split; [|reflexivity].
  unfold events_since. cbn [snd trace]. apply drop_app_length.
Qed.

(** X18: when the detector flags the first generation and finds the first
    regeneration clean, the path stops there: it returns the text of that
    regeneration, made with the stage-2 configuration, and the stage-3
    configuration is never used.  The regeneration is examined whatever its
    length; the length test applies to the first generation only. *)
Theorem anti_degen_stops_at_first_clean_fallback
    mdl tok prompt version gc tl (s : State) input g0 r0 g1 r1 response output :
  tokenize tok prompt = inr input ->
  generate mdl (rng s) input gc = (inr g0, r0) ->
  Z.of_nat (length g0) > 2 * tl ->
  detect_degeneration g0 version = inr true ->
  generate mdl r0 input (backup_generation_config_stage2 tl) = (inr g1, r1) ->
  detect_degeneration g1 version = inr false ->
  decode tok g1 = inr response ->
  split_response response version = inr output ->
  let run := get_model_response_anti_degen mdl tok prompt version gc tl s in
  fst run = Ret output /\
  events_since s (snd run) =
    [EvTokenize prompt; EvGenerate gc; EvDetect g0;
     EvTokenize prompt; EvGenerate (backup_generation_config_stage2 tl); EvDetect g1;
     EvDecode g1].
Proof.
  intros Ht Hg0 Hlen Hd0 Hg1 Hd1 Hdec Hsplit run.
  destruct s as [c l t m g n tr]. cbn [rng] in Hg0.
  assert (Hrun : run =
    (Ret output,
     mkState c l t m r1 n
       (tr ++ [EvTokenize prompt; EvGenerate gc; EvDetect g0;
               EvTokenize prompt; EvGenerate (backup_generation_config_stage2 tl);
               EvDetect g1; EvDecode g1]))).
  { subst run. unfold get_model_response_anti_degen. cbn zeta.
    rewrite (bind_returns _ _ _ _ _ (run_tokenize_returns tok prompt _ input Ht)).
    tidy.
    erewrite (bind_returns _ _ _ _ _ (run_generate_returns mdl input gc _ g0 r0 _)).
    tidy.
    destruct (Z.gtb_spec (Z.of_nat (length g0)) (2 * tl)) as [_|Hle]; [|lia].
    unfold bind at 1.
    erewrite degeneration_loop_retries;
      [ | exact Hd0 | lia
        | tidy; eapply regenerate_returns; [exact Ht | reflexivity | exact Hg1] ].
    tidy. rewrite (degeneration_loop_clean _ _ _ _ _ _ _ _ Hd1).
    tidy. unfold_monad. cbn. rewrite Hdec. cbn. rewrite Hsplit. cbn.
    rewrite <- !app_assoc. reflexivity.
    Unshelve. exact Hg0. }
  rewrite Hrun. split; [reflexivity|].
  unfold events_since. cbn [snd trace]. apply drop_app_length.
Qed.

(** X19: an exception of the detector ends the anti-degeneration path with
    that exception; the generation it was asked about is neither decoded nor
    returned. *)
Theorem anti_degen_detector_failure
    mdl tok prompt version gc tl (s : State) input g0 r0 e :
  tokenize tok prompt = inr input ->
  generate mdl (rng s) input gc = (inr g0, r0) ->
  Z.of_nat (length g0) > 2 * tl ->
  detect_degeneration g0 version = inl e ->
  let run := get_model_response_anti_degen mdl tok prompt version gc tl s in
  fst run = Raise e /\
  events_since s (snd run) = [EvTokenize prompt; EvGenerate gc; EvDetect g0].
Proof.
  intros Ht Hg0 Hlen Hd0 run.
  destruct s as [c l t m g n tr]. cbn [rng] in Hg0.
  assert (Hrun : run =
    (Raise e,
     mkState c l t m r0 n (tr ++ [EvTokenize prompt; EvGenerate gc; EvDetect g0]))).
  { subst run. unfold get_model_response_anti_degen. cbn zeta.
    rewrite (bind_returns _ _ _ _ _ (run_tokenize_returns tok prompt _ input Ht)).
    tidy.
    erewrite (bind_returns _ _ _ _ _ (run_generate_returns mdl input gc _ g0 r0 _)).
    tidy.
    destruct (Z.gtb_spec (Z.of_nat (length g0)) (2 * tl)) as [_|Hle]; [|lia].
    unfold bind at 1. simp degeneration_loop.
    unfold run_detect at 1. unfold_monad. cbn. rewrite Hd0. cbn.
    simp degeneration_loop. cbn. rewrite <- !app_assoc. reflexivity.
    Unshelve. exact Hg0. }
  rewrite Hrun. split; [reflexivity|].
  unfold events_since. cbn [snd trace]. apply drop_app_length.
Qed.

End ServiceProperties.

(** ** The service on the stand-in library *)

Module Runs.
Import Demo.

Lemma greedy_ignores_generator :
  forall (mdl : Model) (g g' : Rng) input gc', do_sample gc' = false ->
    fst (generate mdl g input gc') = fst (generate mdl g' input gc').
Proof. intros mdl g g' input gc' H. cbn. unfold continue. now rewrite H. Qed.

(** C2, as stated, fails: with a configured length of 1 and a two-character
    prompt the computed length is 2, and the call returns five new tokens. *)
Lemma completion_generation_exceeds_text_length :
  exists r s',
    completion "ab" greedy false serving = (Ret r, s') /\
    get_max_text_length (PyStr.len "ab") serving = (Ret 2, serving) /\
    2 < new_token r.
Proof.
  eexists _, _. split; [vm_compute; reflexivity|].
  split; [vm_compute; reflexivity|]. reflexivity.
Qed.

Lemma completion_text_length_computed_not_enforced_witness :
  (exists input generation,
      tokenize vocabulary "ab" = inr input /\
      generate checkpoint (rng serving) input greedy = (inr generation, 1%nat) /\
      2 = Z.of_nat (length input) /\
      5 = Z.of_nat (length generation) - Z.of_nat (length input)) /\
  completion "ab" greedy false (reconfigure 512 serving) =
    (fst (completion "ab" greedy false serving),
     reconfigure 512 (snd (completion "ab" greedy false serving))).
Proof.
  destruct (completion_text_length_computed_not_enforced
              "ab" greedy false serving checkpoint vocabulary
              ltac:(reflexivity) ltac:(reflexivity)) as (_ & _ & Hcount & Hsame).
  split; [|exact (Hsame 512)].
  apply (Hcount (mkModelResponse 2 5 "abaaaaa")
                (snd (completion "ab" greedy false serving))).
  vm_compute. reflexivity.
Defined.

Lemma init_guards_model_identity_witness :
  fst (__init__ config boot) = Ret tt /\
  model_name (cfg (snd (__init__ config boot))) = Some "Sakura-13B-LNovel" /\
  model_version (cfg (snd (__init__ config boot))) = "0.8" /\
  model_quant (cfg (snd (__init__ config boot))) = Some "fp16".
Proof.
  destruct (init_guards_model_identity config boot vocabulary checkpoint
              (snd (load_model config (snd (init_prologue config boot))))
              ltac:(vm_compute; reflexivity)) as [_ Hok].
  destruct (Hok "Sakura-13B-LNovel" "fp16"
              ltac:(vm_compute; reflexivity) ltac:(vm_compute; reflexivity)
              ltac:(vm_compute; reflexivity)) as (H1 & H2 & H3 & H4 & _).
  repeat split; assumption.
Defined.

Lemma anti_degen_gives_up_after_two_fallbacks_witness :
  fst (get_model_response_anti_degen checkpoint vocabulary "ab" "0.8" greedy 1 serving) =
    Ret "abdd" /\
  events_since serving
    (snd (get_model_response_anti_degen checkpoint vocabulary "ab" "0.8" greedy 1 serving)) =
    [EvTokenize "ab"; EvGenerate greedy; EvDetect first_generation;
     EvTokenize "ab"; EvGenerate (backup_generation_config_stage2 1);
     EvDetect second_generation;
     EvTokenize "ab"; EvGenerate (backup_generation_config_stage3 1);
     EvDetect third_generation;
     EvPrint "model degeneration cannot be avoided."; EvDecode third_generation].
Proof.
  apply (anti_degen_gives_up_after_two_fallbacks checkpoint vocabulary "ab" "0.8" greedy 1
           serving short_prompt_tokens first_generation 1%nat
           second_generation 2%nat third_generation 3%nat "abdd" "abdd");
    vm_compute; reflexivity.
Defined.

Lemma get_max_text_length_is_max_witness :
  get_max_text_length 0 serving = (Ret 1, serving) /\
  get_max_text_length 100000 serving = (Ret 100000, serving).
Proof.
  split.
  - apply (get_max_text_length_is_max 0 serving). lia.
  - apply (get_max_text_length_is_max 100000 serving). lia.
Defined.

Lemma check_model_by_magic_compares_exactly_witness :
  fst (check_model_by_magic serving) = Ret true.
Proof.
  destruct (check_model_by_magic_compares_exactly serving
              (mkTestCase greedy "hi" "hiaaaaa") "hi"
              (mkModelResponse 2 5 "hiaaaaa")
              (snd (completion "hi" greedy false serving))
              ltac:(reflexivity) ltac:(reflexivity)
              ltac:(vm_compute; reflexivity)) as [Hsame _].
  apply Hsame. reflexivity.
Defined.

Lemma anti_degen_detector_gate_witness :
  events_since serving
    (snd (get_model_response_anti_degen checkpoint vocabulary "ab" "0.8" greedy 4 serving)) =
    [EvTokenize "ab"; EvGenerate greedy; EvDecode first_generation] /\
  fst (get_model_response_anti_degen checkpoint vocabulary "ab" "0.8" greedy 4 serving) =
    Ret "abaaaaa".
Proof.
  destruct (anti_degen_detector_gate checkpoint vocabulary "ab" "0.8" greedy 4 serving
              short_prompt_tokens first_generation 1%nat
              ltac:(reflexivity) ltac:(reflexivity)) as [_ Hshort].
  apply Hshort. vm_compute. discriminate.
Defined.

Lemma completion_repeats_without_sampling_witness :
  exists s2,
    completion "ab" greedy false (snd (completion "ab" greedy false serving)) =
      (Ret (mkModelResponse 2 5 "abaaaaa"), s2).
Proof.
  destruct (completion_repeats_without_sampling "ab" greedy false serving
              (mkModelResponse 2 5 "abaaaaa")
              (snd (completion "ab" greedy false serving))
              greedy_ignores_generator ltac:(reflexivity)
              ltac:(vm_compute; reflexivity)) as [_ Hagain].
  exact Hagain.
Defined.

End Runs.

(** ** Further runs on the stand-in libraries *)

Module FurtherRuns.

Lemma load_model_refuses_substrings_witness :
  load_model (mkConfig "sakura" false false false 512 None None "7 0") Demo.boot =
    (Raise (ValueError trust_flag_message), Demo.boot).
Proof.
  apply (load_model_refuses_substrings
           (mkConfig "sakura" false false false 512 None None "7 0") Demo.boot
           ltac:(reflexivity) ltac:(reflexivity)).
  split; [reflexivity|]. exists "0.5 0.", ".8". reflexivity.
Defined.

Lemma load_model_tokenizer_failure_witness :
  fst (load_model (mkConfig "" false true false 512 None None "0.9") Faulty.serving) =
    Raise (LibraryError "no such path") /\
  events_since Faulty.serving
    (snd (load_model (mkConfig "" false true false 512 None None "0.9")
            Faulty.serving)) =
    [EvLog ModuleLogger INFO MsgLoadingModel;
     EvLoadTokenizer AutoTokenizer_ctor "" true].
Proof.
  apply (load_model_tokenizer_failure
           (mkConfig "" false true false 512 None None "0.9") Faulty.serving
           (LibraryError "no such path")).
  - left. reflexivity.
  - reflexivity.
Defined.

Lemma load_model_constructor_choice_witness :
  events_since Demo.boot (snd (load_model Demo.config Demo.boot)) =
    [EvLog ModuleLogger INFO MsgLoadingModel;
     EvLoadTokenizer AutoTokenizer_ctor "sakura" true;
     EvLoadModel AutoModelForCausalLM_ctor "sakura" true].
Proof.
  apply (load_model_constructor_choice Demo.config Demo.boot
           Demo.vocabulary Demo.checkpoint
           (snd (load_model Demo.config Demo.boot))).
  vm_compute. reflexivity.
Defined.

Lemma init_guard_failure_is_logged_witness :
  events_since
    (snd (load_model Demo.config (snd (init_prologue Demo.config Faulty.serving))))
    (snd (__init__ Demo.config Faulty.serving)) =
    [EvLog ModuleLogger ERROR (MsgVersionCheckFailed "0.8" "0.9");
     EvLog ModuleLogger ERROR (MsgCurrentConfig "Sakura-13B-LNovel" "0.9" "fp16")] /\
  cfg (snd (__init__ Demo.config Faulty.serving)) = Demo.config.
Proof.
  destruct (init_guard_failure_is_logged Demo.config Faulty.serving
              Faulty.vocabulary Faulty.checkpoint
              (snd (load_model Demo.config
                      (snd (init_prologue Demo.config Faulty.serving))))
              ltac:(vm_compute; reflexivity)) as (_ & _ & _ & Hmismatch).
  apply (Hmismatch "Sakura-13B-LNovel" "0.9" "fp16").
  - vm_compute. reflexivity.
  - discriminate.
Defined.

Lemma init_success_state_witness :
  exists name quant,
    cfg Demo.serving =
      mkConfig "sakura" false true false 1 (Some name) (Some quant) "0.8" /\
    lock Demo.serving = false /\ rng Demo.serving = rng Demo.boot /\
    clock_reads Demo.serving = clock_reads Demo.boot /\
    events_since Demo.boot Demo.serving =
      [EvHijackSamplers; EvLog ModuleLogger INFO MsgLoadingModel;
       EvLoadTokenizer AutoTokenizer_ctor "sakura" true;
       EvLoadModel AutoModelForCausalLM_ctor "sakura" true].
Proof.
  apply (init_success_state Demo.config Demo.boot Demo.serving).
  vm_compute. reflexivity.
Defined.

Lemma constructed_service_serves_witness :
  exists mdl tok,
    model Demo.serving = Some mdl /\ tokenizer Demo.serving = Some tok /\
    lock Demo.serving = false /\
    model_config mdl !! "sakura_version" = Some "0.8" /\
    completion "ab" Demo.greedy true Demo.serving =
      get_model_response mdl tok "ab" "0.8" Demo.greedy
        (Z.max 1 (PyStr.len "ab")) true
        (snd (emit (EvLogGenerationConfig Demo.greedy) Demo.serving)) /\
    fst (completion "ab" Demo.greedy true Demo.serving) <> Blocked.
Proof.
  apply (constructed_service_serves Demo.config Demo.boot Demo.serving
           "ab" Demo.greedy true).
  vm_compute. reflexivity.
Defined.

Lemma get_model_response_propagates_errors_witness :
  fst (get_model_response Faulty.checkpoint Faulty.vocabulary "" "0.9"
         Demo.greedy 1 true Faulty.serving) =
    Raise (LibraryError "empty prompt") /\
  events_since Faulty.serving
    (snd (get_model_response Faulty.checkpoint Faulty.vocabulary "" "0.9"
            Demo.greedy 1 true Faulty.serving)) = [EvTokenize ""].
Proof.
  destruct (get_model_response_propagates_errors Faulty.checkpoint
              Faulty.vocabulary "" "0.9" Demo.greedy 1 true Faulty.serving
              ltac:(reflexivity)) as (_ & Htokenizer & _).
  apply Htokenizer. reflexivity.
Defined.

Lemma get_model_response_stalled_clock_witness :
  fst (with_lock
         (run_chain
            (critical_chain
               (mkCall Faulty.checkpoint Faulty.vocabulary "ab" "0.9" Demo.greedy 1
                  true)))
         Faulty.serving) = Ret (0%Q, 2, 5, "abaaaaa", 0%Q) /\
  fst (get_model_response Faulty.checkpoint Faulty.vocabulary "ab" "0.9"
         Demo.greedy 1 true Faulty.serving) = Raise ZeroDivisionError /\
  fst (get_model_response Faulty.checkpoint Faulty.vocabulary "ab" "0.9"
         Demo.greedy 1 false Faulty.serving) =
    Ret (mkModelResponse 2 5 "abaaaaa").
Proof.
  destruct (get_model_response_stalled_clock Faulty.checkpoint Faulty.vocabulary
              "ab" "0.9" Demo.greedy 1 Faulty.serving
              Demo.short_prompt_tokens Demo.first_generation 1%nat
              "abaaaaa" "abaaaaa"
              ltac:(reflexivity) ltac:(reflexivity) ltac:(reflexivity)
              ltac:(reflexivity) ltac:(reflexivity) ltac:(reflexivity))
    as (_ & Hblock & _ & _ & Hloud & Hquiet).
  split; [|split].
  - now rewrite Hblock.
  - now rewrite Hloud.
  - now rewrite Hquiet.
Defined.

Lemma print_speed_only_adds_a_record_witness :
  exists (s0 : @State Demo.library) locked,
    (forall ips,
        get_model_response Demo.checkpoint Demo.vocabulary "ab" "0.8" Demo.greedy 2
          ips =
        bind (with_lock
                (run_chain
                   (critical_chain
                      (mkCall Demo.checkpoint Demo.vocabulary "ab" "0.8" Demo.greedy
                         2 ips))))
             (report_speed ips)) /\
    (forall ips,
        with_lock
          (run_chain
             (critical_chain
                (mkCall Demo.checkpoint Demo.vocabulary "ab" "0.8" Demo.greedy 2
                   ips)))
          Demo.serving = (Ret locked, s0)) /\
    lock s0 = false /\
    ~ (@time_source Demo.library (S (clock_reads Demo.serving)) -
       @time_source Demo.library (clock_reads Demo.serving) == 0)%Q /\
    report_speed false locked s0 = (Ret (mkModelResponse 2 5 "abaaaaa"), s0) /\
    report_speed true locked s0 =
      (Ret (mkModelResponse 2 5 "abaaaaa"),
       snd (log ModuleLogger INFO
              (MsgSpeed (@time_source Demo.library (S (clock_reads Demo.serving)) -
                         @time_source Demo.library (clock_reads Demo.serving)) 5 2) s0)) /\
    get_model_response Demo.checkpoint Demo.vocabulary "ab" "0.8" Demo.greedy 2
      false Demo.serving = (Ret (mkModelResponse 2 5 "abaaaaa"), s0) /\
    snd (get_model_response Demo.checkpoint Demo.vocabulary "ab" "0.8"
           Demo.greedy 2 true Demo.serving) =
      snd (log ModuleLogger INFO
             (MsgSpeed (@time_source Demo.library (S (clock_reads Demo.serving)) -
                        @time_source Demo.library (clock_reads Demo.serving)) 5 2) s0).
Proof.
  apply (print_speed_only_adds_a_record Demo.checkpoint Demo.vocabulary "ab" "0.8"
           Demo.greedy 2 Demo.serving (mkModelResponse 2 5 "abaaaaa")
           (snd (get_model_response Demo.checkpoint Demo.vocabulary "ab" "0.8"
                   Demo.greedy 2 true Demo.serving))).
  vm_compute. reflexivity.
Defined.

Lemma check_model_by_magic_lookup_failure_witness :
  check_model_by_magic Faulty.serving =
    (Raise (LibraryError "unknown version"), Faulty.serving).
Proof.
  apply (check_model_by_magic_lookup_failure Faulty.serving
           (LibraryError "unknown version")).
  left. reflexivity.
Defined.

Lemma check_model_by_magic_completion_failure_witness :
  check_model_by_magic
    (mkState (cfg Demo.serving) true (Some Demo.vocabulary) (Some Demo.checkpoint)
             0%nat 0%nat []) =
    (Blocked,
     snd (emit (EvLogGenerationConfig Demo.greedy)
            (mkState (cfg Demo.serving) true (Some Demo.vocabulary)
                     (Some Demo.checkpoint) 0%nat 0%nat []))).
Proof.
  destruct (check_model_by_magic_completion_failure
              (mkState (cfg Demo.serving) true (Some Demo.vocabulary)
                       (Some Demo.checkpoint) 0%nat 0%nat [])
              (mkTestCase Demo.greedy "hi" "hiaaaaa") "hi"
              (snd (emit (EvLogGenerationConfig Demo.greedy)
                      (mkState (cfg Demo.serving) true (Some Demo.vocabulary)
                               (Some Demo.checkpoint) 0%nat 0%nat [])))
              ltac:(reflexivity) ltac:(reflexivity)) as [_ Hwaits].
  apply Hwaits. vm_compute. reflexivity.
Defined.

Lemma anti_degen_keeps_clean_first_generation_witness :
  fst (get_model_response_anti_degen Faulty.checkpoint Faulty.vocabulary "ab" "0.9"
         Faulty.sampling 1 Faulty.serving) = Ret "abbbbbb" /\
  events_since Faulty.serving
    (snd (get_model_response_anti_degen Faulty.checkpoint Faulty.vocabulary "ab"
            "0.9" Faulty.sampling 1 Faulty.serving)) =
    [EvTokenize "ab"; EvGenerate Faulty.sampling;
     EvDetect [97; 98; 98; 98; 98; 98; 98]; EvDecode [97; 98; 98; 98; 98; 98; 98]] /\
  rng (snd (get_model_response_anti_degen Faulty.checkpoint Faulty.vocabulary "ab"
              "0.9" Faulty.sampling 1 Faulty.serving)) = 1%nat.
Proof.
  apply (anti_degen_keeps_clean_first_generation Faulty.checkpoint
           Faulty.vocabulary "ab" "0.9" Faulty.sampling 1 Faulty.serving
           Demo.short_prompt_tokens [97; 98; 98; 98; 98; 98; 98] 1%nat);
    reflexivity.
Defined.

Lemma anti_degen_stops_at_first_clean_fallback_witness :
  fst (get_model_response_anti_degen Faulty.checkpoint Faulty.vocabulary "ab" "0.9"
         Demo.greedy 1 Faulty.serving) = Ret "abcc" /\
  events_since Faulty.serving
    (snd (get_model_response_anti_degen Faulty.checkpoint Faulty.vocabulary "ab"
            "0.9" Demo.greedy 1 Faulty.serving)) =
    [EvTokenize "ab"; EvGenerate Demo.greedy; EvDetect Demo.first_generation;
     EvTokenize "ab"; EvGenerate (backup_generation_config_stage2 1);
     EvDetect Demo.second_generation; EvDecode Demo.second_generation].
Proof.
  apply (anti_degen_stops_at_first_clean_fallback Faulty.checkpoint
           Faulty.vocabulary "ab" "0.9" Demo.greedy 1 Faulty.serving
           Demo.short_prompt_tokens Demo.first_generation 1%nat
           Demo.second_generation 2%nat "abcc" "abcc");
    reflexivity.
Defined.

Lemma anti_degen_detector_failure_witness :
  fst (get_model_response_anti_degen Faulty.checkpoint Faulty.vocabulary "ab" ""
         Demo.greedy 1 Faulty.serving) = Raise (LibraryError "unknown version") /\
  events_since Faulty.serving
    (snd (get_model_response_anti_degen Faulty.checkpoint Faulty.vocabulary "ab" ""
            Demo.greedy 1 Faulty.serving)) =
    [EvTokenize "ab"; EvGenerate Demo.greedy; EvDetect Demo.first_generation].
Proof.
  apply (anti_degen_detector_failure Faulty.checkpoint Faulty.vocabulary "ab" ""
           Demo.greedy 1 Faulty.serving Demo.short_prompt_tokens
           Demo.first_generation 1%nat (LibraryError "unknown version"));
    reflexivity.
Defined.

End FurtherRuns.

(** ** Properties of concurrent calls *)

Module ConcurrentProperties.
Import Concurrent.

Section MachineProperties.
Context {E : Externals}.

Lemma lookup_replaced (p : gmap nat Thread) i t' j t :
  <[i := t']> p !! j = Some t ->
  (j = i /\ t = t') \/ (j <> i /\ p !! j = Some t).
Proof.
  rewrite lookup_insert. case_decide; intros Hj.
  - left. split; congruence.
  - right. split; congruence.
Qed.

Lemma initial_invariant m : initial m -> invariant m.
Proof.
  intros (Hfree & Hlog & Hidle). split.
  - intros _. split; [now rewrite Hlog|].
    intros i t Hi. now rewrite (Hidle i t Hi).
  - rewrite Hfree. discriminate.
  - intros i j ti tj Hi _ Hti _. rewrite (Hidle i ti Hi) in Hti. discriminate.
  - now rewrite Hlog.
  - intros i c n rest Hi. apply Hidle in Hi. discriminate.
Qed.

(** With a thread inside the block the lock is held. *)
Lemma inside_holds m i t :
  invariant m -> pool m !! i = Some t -> is_inside t = true ->
  lock (shared m) = true.
Proof.
  intros Hinv Hi Ht. destruct (lock (shared m)) eqn:Hl; [reflexivity|].
  destruct (free_means_empty m Hinv Hl) as [_ Hnone].
  rewrite (Hnone i t Hi) in Ht. discriminate.
Qed.

(** A step outside the block: the thread was not inside and is not inside
    afterwards, and neither the lock nor the log changed. *)
Lemma outside_step_invariant m i t t' s' :
  invariant m ->
  pool m !! i = Some t -> is_inside t = false -> is_inside t' = false ->
  lock s' = lock (shared m) ->
  invariant (mkSystem s' (<[i := t']> (pool m)) (critical_log m)).
Proof.
  intros Hinv Hi Ht Ht' Hlock. split; cbn -[follows]; rewrite ?Hlock.
  - intros Hfree. destruct (free_means_empty m Hinv Hfree) as [Hclosed Hnone].
    split; [exact Hclosed|].
    intros j tj Hj. apply lookup_replaced in Hj as [[-> ->]|[_ Hj]]; eauto.
  - intros Hheld. destruct (held_means_inside m Hinv Hheld) as (j & tj & Hj & Htj).
    exists j, tj. split; [|exact Htj].
    rewrite lookup_insert_ne; [exact Hj|].
    intros ->. rewrite Hi in Hj. inversion Hj; subst. congruence.
  - intros j k tj tk Hj Hk Htj Htk.
    apply lookup_replaced in Hj as [[-> ->]|[_ Hj]]; [congruence|].
    apply lookup_replaced in Hk as [[-> ->]|[_ Hk]]; [congruence|].
    exact (at_most_one m Hinv j k tj tk Hj Hk Htj Htk).
  - exact (log_sequenced m Hinv).
  - intros j c n rest Hj.
    apply lookup_replaced in Hj as [[-> <-]|[_ Hj]]; [discriminate|].
    exact (inside_follows m Hinv j c n rest Hj).
Qed.

(** What comes directly after the newest step of a thread inside. *)
Lemma follows_last_entry i n a :
  a = Critical n \/ a = Raised n \/ a = Release ->
  follows i a (Some (last_entry i n)) = true.
Proof.
  intros [->|[->| ->]]; destruct n; cbn; rewrite ?Nat.eqb_refl; reflexivity.
Qed.

Lemma follows_closed i l : closed l -> follows i Acquire (head l) = true.
Proof.
  unfold closed. destruct (head l) as [[j [| | |]]|]; cbn; tauto.
Qed.

(** The thread inside leaves the block, at its end or by an exception. *)
Lemma leaving_step_invariant m i c n rest t' s' a :
  invariant m ->
  pool m !! i = Some (Inside c n rest) ->
  is_inside t' = false -> lock s' = false ->
  a = Raised n \/ a = Release ->
  invariant (mkSystem s' (<[i := t']> (pool m)) ((i, a) :: critical_log m)).
Proof.
  intros Hinv Hi Ht' Hlock Ha.
  assert (Hothers : forall j tj,
            <[i := t']> (pool m) !! j = Some tj -> is_inside tj = false).
  { intros j tj Hj. apply lookup_replaced in Hj as [[-> ->]|[Hne Hj]]; [exact Ht'|].
    destruct (is_inside tj) eqn:Htj; [|reflexivity].
    exfalso. apply Hne.
    exact (at_most_one m Hinv j i tj _ Hj Hi Htj eq_refl). }
  destruct (inside_follows m Hinv i c n rest Hi) as [_ Hhead].
  split; cbn -[follows].
  - intros _. split; [|exact Hothers].
    unfold closed. cbn. destruct Ha as [-> | ->]; exact I.
  - rewrite Hlock. discriminate.
  - intros j k tj tk Hj Hk Htj _. rewrite (Hothers j tj Hj) in Htj. discriminate.
  - rewrite Hhead, (log_sequenced m Hinv), andb_true_r.
    apply follows_last_entry. tauto.
  - intros j c' n' rest' Hj. apply Hothers in Hj. discriminate.
Qed.

Lemma thread_step_invariant m i t r :
  invariant m -> pool m !! i = Some t -> thread_step t (shared m) = Some r ->
  invariant (advance i r m).
Proof.
  intros Hinv Hi Hstep. destruct t as [|c|c n rest|c locked|o]; cbn in Hstep.
  - discriminate.
  - (* at the lock *)
    unfold acquire in Hstep. destruct (lock (shared m)) eqn:Hfree; [discriminate|].
    inversion Hstep; subst r; clear Hstep. unfold advance.
    destruct (free_means_empty m Hinv Hfree) as [Hclosed Hnone].
    assert (Hone : forall j tj,
              <[i := Inside c 0 (critical_chain c)]> (pool m) !! j = Some tj ->
              is_inside tj = true -> j = i).
    { intros j tj Hj Htj. apply lookup_replaced in Hj as [[-> _]|[_ Hj]];
        [reflexivity|]. rewrite (Hnone j tj Hj) in Htj. discriminate. }
    split; cbn -[follows].
    + discriminate.
    + intros _. exists i, (Inside c 0 (critical_chain c)).
      split; [apply lookup_insert_eq|reflexivity].
    + intros j k tj tk Hj Hk Htj Htk.
      rewrite (Hone j tj Hj Htj), (Hone k tk Hk Htk). reflexivity.
    + rewrite (log_sequenced m Hinv), andb_true_r. now apply (follows_closed i).
    + intros j c' n' rest' Hj.
      apply lookup_replaced in Hj as [[-> Heq]|[_ Hj]].
      * inversion Heq; subst. split; [apply critical_chain_keeps_lock|reflexivity].
      * apply Hnone in Hj. discriminate.
  - (* inside *)
    pose proof (inside_holds m i _ Hinv Hi eq_refl) as Hheld.
    destruct (inside_follows m Hinv i c n rest Hi) as [Hkeeps Hhead].
    destruct rest as [locked|B act k].
    + inversion Hstep; subst r; clear Hstep. unfold advance.
      apply (leaving_step_invariant m i c n (Last locked)); auto.
    + destruct Hkeeps as [Hact Hk]. specialize (Hact (shared m)).
      destruct (act (shared m)) as [[b|e|code|] s1] eqn:Hrun; cbn in Hact;
        inversion Hstep; subst r; clear Hstep; unfold advance.
      * assert (Hone : forall j tj,
                  <[i := Inside c (S n) (k b)]> (pool m) !! j = Some tj ->
                  is_inside tj = true -> j = i).
        { intros j tj Hj Htj. apply lookup_replaced in Hj as [[-> _]|[_ Hj]];
            [reflexivity|].
          exact (at_most_one m Hinv j i tj _ Hj Hi Htj eq_refl). }
        split; cbn -[follows].
        -- rewrite Hact, Hheld. discriminate.
        -- intros _. exists i, (Inside c (S n) (k b)).
           split; [apply lookup_insert_eq|reflexivity].
        -- intros j j' tj tj' Hj Hj' Htj Htj'.
           rewrite (Hone j tj Hj Htj), (Hone j' tj' Hj' Htj'). reflexivity.
        -- rewrite Hhead, (log_sequenced m Hinv), andb_true_r.
           apply follows_last_entry. tauto.
        -- intros j c' n' rest' Hj.
           pose proof (Hone j _ Hj eq_refl) as ->.
           rewrite lookup_insert_eq in Hj. inversion Hj; subst.
           split; [apply Hk|reflexivity].
      * apply (leaving_step_invariant m i c n (Then act k)); auto.
      * apply (leaving_step_invariant m i c n (Then act k)); auto.
  - (* the report *)
    destruct (report_speed (call_print_speed c) locked (shared m)) as [o s1] eqn:Hrun.
    inversion Hstep; subst r; clear Hstep. unfold advance.
    apply (outside_step_invariant m i (Outside c locked)); auto.
    pose proof (report_speed_keeps_lock (call_print_speed c) locked (shared m)) as Hl.
    rewrite Hrun in Hl. exact Hl.
  - discriminate.
Qed.

Lemma step_invariant m m' : invariant m -> step m m' -> invariant m'.
Proof.
  intros Hinv Hstep.
  destruct Hstep as [m i prompt gc ips Hi | m i t r Hi Hr | m i o Hi].
  - unfold do_call.
    pose proof (completion_prefix_keeps_lock prompt gc ips (shared m)) as Hl.
    destruct (completion_prefix prompt gc ips (shared m)) as [o s1].
    apply (outside_step_invariant m i Idle); auto.
    destruct o; reflexivity.
  - now apply (thread_step_invariant m i t r).
  - unfold do_return. now apply (outside_step_invariant m i (Finished o)).
Qed.

Lemma run_invariant m m' : invariant m -> rtc step m m' -> invariant m'.
Proof.
  intros Hinv Hrun. induction Hrun as [m|m1 m2 m3 Hstep _ IH]; [assumption|].
  apply IH. eapply step_invariant; eassumption.
Qed.

Lemma do_step_reaches i m : rtc step m (do_step i m).
Proof.
  unfold do_step. destruct (pool m !! i) as [t|] eqn:Hi; [|apply rtc_refl].
  destruct (thread_step t (shared m)) as [r|] eqn:Hr; [|apply rtc_refl].
  apply rtc_once. now apply (step_thread m i t r).
Qed.


(** X20: in every state the machine reaches from a fresh service the lock
    is held exactly when some thread stands between acquiring and releasing
    it; in particular a call that raised inside the block has not left the
    lock held.  The lock is the one [with] takes and gives back: [with] is
    acquire, the body, and release whether the body returned, raised or
    exited. *)
Theorem lock_held_iff_thread_inside m0 m :
  initial m0 -> rtc step m0 m ->
  (forall (A : Type) (body : M A) s,
      with_lock body s =
      match acquire s with
      | (Ret _, s1) =>
          match body s1 with
          | (Blocked, s') => (Blocked, s')
          | (o, s') => (o, snd (release s'))
          end
      | (_, s0) => (Blocked, s0)
      end) /\
  (forall c,
      get_model_response (call_model c) (call_tokenizer c) (call_prompt c)
        (call_version c) (call_generation_config c) (call_text_length c)
        (call_print_speed c) =
      bind (with_lock (run_chain (critical_chain c)))
           (report_speed (call_print_speed c))) /\
  (lock (shared m) = true <->
   exists i t, pool m !! i = Some t /\ is_inside t = true) /\
  (forall i e, pool m !! i = Some (Finished (Raise e)) ->
               (forall j t, j <> i -> pool m !! j = Some t -> is_inside t = false) ->
               lock (shared m) = false).
Proof.
  intros Hinit Hrun.
  pose proof (run_invariant m0 m (initial_invariant m0 Hinit) Hrun) as Hinv.
  split; [intros A body s; apply with_lock_acquire_release|].
  split; [intros [mdl tok prompt version gc tl ips]; reflexivity|].
  split; [split|].
  - exact (held_means_inside m Hinv).
  - intros (i & t & Hi & Ht). exact (inside_holds m i t Hinv Hi Ht).
  - intros i e Hi Hothers. destruct (lock (shared m)) eqn:Hl; [|reflexivity].
    destruct (held_means_inside m Hinv Hl) as (j & t & Hj & Ht).
    destruct (decide (j = i)) as [->|Hne].
    + rewrite Hi in Hj. inversion Hj; subst. discriminate.
    + rewrite (Hothers j t Hne Hj) in Ht. discriminate.
Qed.

End MachineProperties.

Lemma two_idle_initial : initial two_idle.
Proof.
  split; [reflexivity|split; [reflexivity|]].
  intros i t. unfold two_idle. cbn.
  rewrite lookup_insert. case_decide; [congruence|].
  rewrite lookup_insert. case_decide; [congruence|].
  rewrite lookup_empty. discriminate.
Qed.

Lemma both_called_reachable : rtc step two_idle both_called.
Proof.
  eapply rtc_l; [apply (step_call two_idle 0%nat "ab" Demo.greedy false);
                 reflexivity|].
  apply rtc_once.
  apply (step_call _ 1%nat "ab" Demo.greedy false). reflexivity.
Qed.

Lemma thread_0_ahead_reachable : rtc step two_idle thread_0_ahead.
Proof.
  etransitivity; [exact both_called_reachable|].
  unfold thread_0_ahead.
  etransitivity; [apply do_step_reaches|].
  etransitivity; [apply do_step_reaches|].
  apply do_step_reaches.
Qed.


Lemma lock_held_iff_thread_inside_witness :
  lock (shared thread_0_ahead) = true /\
  (lock (shared thread_0_ahead) = true <->
   exists i t, pool thread_0_ahead !! i = Some t /\ is_inside t = true).
Proof.
  destruct (lock_held_iff_thread_inside two_idle thread_0_ahead
              two_idle_initial thread_0_ahead_reachable)
    as (_ & _ & Hiff & _).
  split; [reflexivity|exact Hiff].
Defined.

End ConcurrentProperties.
